(** * daemon.py: a shallow embedding of the Daemon controller

    The development follows src/daemon.py.  The Python text primitives the
    PID file goes through ([str], [str.strip], [int]) come first, then the
    operating-system state a single process sees, the methods of class
    [Daemon], and finally the results about them. *)

From stdpp Require Import base option strings gmap list.
From Stdlib Require Import ZArith Ascii String Lia.

Local Open Scope string_scope.
Local Open Scope Z_scope.

(** ** Python text primitives *)

Module PyText.

(** Characters removed by [str.strip()] and skipped by [int()]:
    space, \t, \n, \v, \f, \r. *)
Definition isspace (c : ascii) : bool :=
  let n := nat_of_ascii c in
  ((9 <=? n)%nat && (n <=? 13)%nat) || (n =? 32)%nat.

Definition isdigit (c : ascii) : bool :=
  let n := nat_of_ascii c in (48 <=? n)%nat && (n <=? 57)%nat.

Definition digit_val (c : ascii) : Z := Z.of_nat (nat_of_ascii c) - 48.

Definition digit_char (d : Z) : ascii := ascii_of_nat (Z.to_nat (48 + d)).

Fixpoint lstrip (s : string) : string :=
  match s with
  | EmptyString => EmptyString
  | String c r => if isspace c then lstrip r else s
  end.

Fixpoint rstrip (s : string) : string :=
  match s with
  | EmptyString => EmptyString
  | String c r =>
      match rstrip r with
      | EmptyString => if isspace c then EmptyString else String c EmptyString
      | r' => String c r'
      end
  end.

(** [s.strip()] *)
Definition strip (s : string) : string := rstrip (lstrip s).

(** Horner evaluation of a run of decimal digits; [None] as soon as a
    character is not a digit. *)
Fixpoint int_digits (s : string) (acc : Z) : option Z :=
  match s with
  | EmptyString => Some acc
  | String c r =>
      if isdigit c then int_digits r (10 * acc + digit_val c) else None
  end.

(** [int(s)] in base ten: surrounding white space, an optional sign and
    at least one digit.  [None] stands for [ValueError]. *)
Definition py_int (s : string) : option Z :=
  match strip s with
  | EmptyString => None
  | String c r =>
      if Ascii.eqb c "-" then
        match r with
        | EmptyString => None
        | _ => Z.opp <$> int_digits r 0
        end
      else if Ascii.eqb c "+" then
        match r with
        | EmptyString => None
        | _ => int_digits r 0
        end
      else int_digits (String c r) 0
  end.

(** Decimal digits of a non-negative number, most significant first, in
    front of [acc]. *)
Fixpoint str_digits (fuel : nat) (n : Z) (acc : string) : string :=
  let acc' := String (digit_char (n mod 10)) acc in
  match fuel with
  | O => acc'
  | S f => if n <? 10 then acc' else str_digits f (n / 10) acc'
  end.

(** [str(n)] for an integer. *)
Definition py_str (n : Z) : string :=
  if n <? 0
  then String "-" (str_digits (Z.to_nat (Z.log2 (- n))) (- n) EmptyString)
  else str_digits (Z.to_nat (Z.log2 n)) n EmptyString.

Fixpoint all_chars (P : ascii -> bool) (s : string) : bool :=
  match s with
  | EmptyString => true
  | String c r => P c && all_chars P r
  end.

End PyText.

Import PyText.

(** ** The operating system as one process sees it *)

Definition LF : ascii := ascii_of_nat 10.
Definition nl : string := String LF EmptyString.

Definition SIGTERM : Z := 15.

Inductive errno := ENOENT | EACCES | EISDIR | EBADF | ESRCH | EPERM | EAGAIN.

(** The exceptions the module raises or lets through. *)
Inductive exn :=
| SystemExit (code : Z)
| OSError (e : errno)
| IOError (e : errno)
| ValueError
| IndexError
| OverflowError
| RuntimeError (msg : string)
| NotImplementedError (msg : string)
| SyntaxError (msg : string).

Inductive res (A : Type) :=
| Ok (a : A)
| Raise (e : exn).
Arguments Ok {A} a.
Arguments Raise {A} e.

(** The configuration held by a [Daemon] object (set in [__init__]). *)
Record Daemon := {
  pidfile : string;
  stdin : string;
  stdout : string;
  stderr : string
}.

(** [Daemon(pidfile)] with the default redirection targets. *)
Definition Daemon_init (pf : string) : Daemon :=
  {| pidfile := pf; stdin := "/dev/null"; stdout := "/dev/null";
     stderr := "/dev/null" |}.

Inductive stream := Stdout | Stderr.
Inductive open_mode := ORead | OWrite.

(** A directory entry: a directory, or a regular file with its permission
    bits and its content. *)
Inductive node :=
| Dir
| File (mode : Z) (data : string).

(** What one call of [os.fork()] does to the process the model follows:
    it fails, it returns the child's id (the process is the parent), or
    the model continues in the child, whose id is [pid]. *)
Inductive fork_outcome :=
| ForkFails
| InParent (child : positive)
| InChild (pid : positive).

(** The two closures [daemonize] creates, as data: the [atexit] callback
    [lambda: os.remove(self.pidfile)] and [sigterm_handler]. *)
Inductive callback := RemovePidfile (self : Daemon).
Inductive handler := SigtermHandler.

Inductive event :=
| EFork (ret : Z)
| EChdir (path : string)
| EUmask (mask : Z)
| ESetsid
| EFlush (s : stream)
| EOpen (path : string) (md : open_mode) (fd : nat)
| EDup2 (src dst : nat)
| EClose (fd : nat)
| EWriteFd (fd : nat) (text : string)
| EAtexit (cb : callback)
| ESignal (signo : Z) (h : handler)
| EWrite (s : stream) (text : string)
| EKill (pid signo : Z)
| ERemove (path : string).

Record World := {
  w_pid : Z;                        (* os.getpid() *)
  w_leader : bool;                  (* process-group leader *)
  w_ctty : bool;                    (* has a controlling terminal *)
  w_cwd : string;
  w_umask : Z;
  w_fs : gmap string node;          (* absolute path -> entry *)
  w_nocreate : string -> option errno;  (* why a new entry cannot be made *)
  w_fds : gmap nat (string * open_mode);  (* open file descriptors *)
  w_forks : list fork_outcome;      (* outcomes of the coming forks *)
  w_procs : gset Z;                 (* ids os.kill can reach *)
  w_atexit : list callback;         (* most recently registered first *)
  w_handlers : gmap Z handler;      (* Python-level signal handlers *)
  w_self_pid : option Z;            (* attribute self.pid *)
  w_trace : list event              (* system calls and stream writes *)
}.

Definition set_trace (t : list event) (w : World) : World :=
  {| w_pid := w_pid w; w_leader := w_leader w; w_ctty := w_ctty w;
     w_cwd := w_cwd w; w_umask := w_umask w; w_fs := w_fs w;
     w_nocreate := w_nocreate w; w_fds := w_fds w; w_forks := w_forks w;
     w_procs := w_procs w; w_atexit := w_atexit w;
     w_handlers := w_handlers w; w_self_pid := w_self_pid w;
     w_trace := t |}.

Definition set_fs (fs : gmap string node) (w : World) : World :=
  {| w_pid := w_pid w; w_leader := w_leader w; w_ctty := w_ctty w;
     w_cwd := w_cwd w; w_umask := w_umask w; w_fs := fs;
     w_nocreate := w_nocreate w; w_fds := w_fds w; w_forks := w_forks w;
     w_procs := w_procs w; w_atexit := w_atexit w;
     w_handlers := w_handlers w; w_self_pid := w_self_pid w;
     w_trace := w_trace w |}.

Definition set_fds (fds : gmap nat (string * open_mode)) (w : World) : World :=
  {| w_pid := w_pid w; w_leader := w_leader w; w_ctty := w_ctty w;
     w_cwd := w_cwd w; w_umask := w_umask w; w_fs := w_fs w;
     w_nocreate := w_nocreate w; w_fds := fds; w_forks := w_forks w;
     w_procs := w_procs w; w_atexit := w_atexit w;
     w_handlers := w_handlers w; w_self_pid := w_self_pid w;
     w_trace := w_trace w |}.

Definition set_cwd (d : string) (w : World) : World :=
  {| w_pid := w_pid w; w_leader := w_leader w; w_ctty := w_ctty w;
     w_cwd := d; w_umask := w_umask w; w_fs := w_fs w;
     w_nocreate := w_nocreate w; w_fds := w_fds w; w_forks := w_forks w;
     w_procs := w_procs w; w_atexit := w_atexit w;
     w_handlers := w_handlers w; w_self_pid := w_self_pid w;
     w_trace := w_trace w |}.

Definition set_umask (m : Z) (w : World) : World :=
  {| w_pid := w_pid w; w_leader := w_leader w; w_ctty := w_ctty w;
     w_cwd := w_cwd w; w_umask := m; w_fs := w_fs w;
     w_nocreate := w_nocreate w; w_fds := w_fds w; w_forks := w_forks w;
     w_procs := w_procs w; w_atexit := w_atexit w;
     w_handlers := w_handlers w; w_self_pid := w_self_pid w;
     w_trace := w_trace w |}.

Definition set_session (w : World) : World :=
  {| w_pid := w_pid w; w_leader := true; w_ctty := false;
     w_cwd := w_cwd w; w_umask := w_umask w; w_fs := w_fs w;
     w_nocreate := w_nocreate w; w_fds := w_fds w; w_forks := w_forks w;
     w_procs := w_procs w; w_atexit := w_atexit w;
     w_handlers := w_handlers w; w_self_pid := w_self_pid w;
     w_trace := w_trace w |}.

Definition set_forks (l : list fork_outcome) (w : World) : World :=
  {| w_pid := w_pid w; w_leader := w_leader w; w_ctty := w_ctty w;
     w_cwd := w_cwd w; w_umask := w_umask w; w_fs := w_fs w;
     w_nocreate := w_nocreate w; w_fds := w_fds w; w_forks := l;
     w_procs := w_procs w; w_atexit := w_atexit w;
     w_handlers := w_handlers w; w_self_pid := w_self_pid w;
     w_trace := w_trace w |}.

(** The process the model follows becomes the freshly forked child. *)
Definition set_child (p : Z) (w : World) : World :=
  {| w_pid := p; w_leader := false; w_ctty := w_ctty w;
     w_cwd := w_cwd w; w_umask := w_umask w; w_fs := w_fs w;
     w_nocreate := w_nocreate w; w_fds := w_fds w; w_forks := w_forks w;
     w_procs := w_procs w; w_atexit := w_atexit w;
     w_handlers := w_handlers w; w_self_pid := w_self_pid w;
     w_trace := w_trace w |}.

Definition set_atexit (l : list callback) (w : World) : World :=
  {| w_pid := w_pid w; w_leader := w_leader w; w_ctty := w_ctty w;
     w_cwd := w_cwd w; w_umask := w_umask w; w_fs := w_fs w;
     w_nocreate := w_nocreate w; w_fds := w_fds w; w_forks := w_forks w;
     w_procs := w_procs w; w_atexit := l;
     w_handlers := w_handlers w; w_self_pid := w_self_pid w;
     w_trace := w_trace w |}.

Definition set_handlers (h : gmap Z handler) (w : World) : World :=
  {| w_pid := w_pid w; w_leader := w_leader w; w_ctty := w_ctty w;
     w_cwd := w_cwd w; w_umask := w_umask w; w_fs := w_fs w;
     w_nocreate := w_nocreate w; w_fds := w_fds w; w_forks := w_forks w;
     w_procs := w_procs w; w_atexit := w_atexit w;
     w_handlers := h; w_self_pid := w_self_pid w;
     w_trace := w_trace w |}.

Definition set_self_pid (p : option Z) (w : World) : World :=
  {| w_pid := w_pid w; w_leader := w_leader w; w_ctty := w_ctty w;
     w_cwd := w_cwd w; w_umask := w_umask w; w_fs := w_fs w;
     w_nocreate := w_nocreate w; w_fds := w_fds w; w_forks := w_forks w;
     w_procs := w_procs w; w_atexit := w_atexit w;
     w_handlers := w_handlers w; w_self_pid := p;
     w_trace := w_trace w |}.

Definition log (e : event) (w : World) : World :=
  set_trace (w_trace w ++ [e]) w.

(** *** Computations: state passing with exceptions *)

Definition M (A : Type) : Type := World -> res A * World.

Definition ret {A} (a : A) : M A := fun w => (Ok a, w).

Definition bind {A B} (m : M A) (k : A -> M B) : M B :=
  fun w =>
    match m w with
    | (Ok a, w') => k a w'
    | (Raise e, w') => (Raise e, w')
    end.

Definition raise {A} (e : exn) : M A := fun w => (Raise e, w).

(** [try: m except ...: h]: [h e] is [None] when no clause matches [e]. *)
Definition try_except {A} (m : M A) (h : exn -> option (M A)) : M A :=
  fun w =>
    match m w with
    | (Ok a, w') => (Ok a, w')
    | (Raise e, w') =>
        match h e with
        | Some k => k w'
        | None => (Raise e, w')
        end
    end.

#[export] Instance M_ret : MRet M := @ret.
#[export] Instance M_bind : MBind M := fun A B k m => bind m k.

(** *** Paths and permissions *)

Definition is_abs (p : string) : bool :=
  match p with
  | String "/" _ => true
  | _ => false
  end.

(** The entry a path names for a process whose working directory is
    [cwd]. *)
Definition resolve (cwd p : string) : string :=
  if is_abs p then p
  else if String.eqb cwd "/" then "/" +:+ p
  else cwd +:+ "/" +:+ p.

Definition owner_r (mode : Z) : bool := Z.testbit mode 8.
Definition owner_w (mode : Z) : bool := Z.testbit mode 7.

(** Permission bits of a file made by [open(path, 'w')]: 0666 less the
    file-creation mask. *)
Definition create_mode (umask : Z) : Z := Z.land 438 (Z.lnot umask).

(** The lowest descriptor number not in use. *)
Definition lowest_free (fds : gmap nat (string * open_mode)) : nat :=
  default (S (size fds))
    (List.find (fun n => bool_decide (fds !! n = None)) (seq 0 (S (size fds)))).

(** *** System calls and library calls *)

(** [os.fork()] *)
Definition os_fork : M Z := fun w =>
  match w_forks w with
  | [] => (Raise (OSError EAGAIN), w)
  | ForkFails :: l => (Raise (OSError EAGAIN), set_forks l w)
  | InParent c :: l => (Ok (Z.pos c), log (EFork (Z.pos c)) (set_forks l w))
  | InChild p :: l =>
      (Ok 0, log (EFork 0) (set_child (Z.pos p) (set_forks l w)))
  end.

(** [os.chdir(path)] *)
Definition os_chdir (p : string) : M unit := fun w =>
  let q := resolve (w_cwd w) p in
  match w_fs w !! q with
  | Some Dir => (Ok tt, log (EChdir p) (set_cwd q w))
  | _ => (Raise (OSError ENOENT), w)
  end.

(** [os.umask(mask)]: returns the previous mask. *)
Definition os_umask (m : Z) : M Z := fun w =>
  (Ok (w_umask w), log (EUmask m) (set_umask m w)).

(** [os.setsid()]: refused to a process-group leader. *)
Definition os_setsid : M unit := fun w =>
  if w_leader w then (Raise (OSError EPERM), w)
  else (Ok tt, log ESetsid (set_session w)).

(** [os.getpid()] *)
Definition os_getpid : M Z := fun w => (Ok (w_pid w), w).

(** [stream.flush()] on [sys.stdout] or [sys.stderr]. *)
Definition flush (s : stream) : M unit := fun w => (Ok tt, log (EFlush s) w).

(** [stream.write(text)] on [sys.stdout] or [sys.stderr]. *)
Definition stream_write (s : stream) (text : string) : M unit := fun w =>
  (Ok tt, log (EWrite s text) w).

(** [print(text)] and [print(text, file=sys.stderr)]. *)
Definition print (s : stream) (text : string) : M unit :=
  stream_write s (text +:+ nl).

(** What [open] finds and leaves at the entry [q]: the error number of the
    [IOError], or the file system with the file there (made or emptied
    when opened for writing). *)
Definition open_fs (md : open_mode) (w : World) (q : string)
  : errno + gmap string node :=
  match w_fs w !! q with
  | Some Dir => inl EISDIR
  | Some (File m d) =>
      match md with
      | ORead => if owner_r m then inr (w_fs w) else inl EACCES
      | OWrite =>
          if owner_w m then inr (<[q := File m EmptyString]> (w_fs w))
          else inl EACCES
      end
  | None =>
      match md with
      | ORead => inl ENOENT
      | OWrite =>
          match w_nocreate w q with
          | Some e => inl e
          | None =>
              inr (<[q := File (create_mode (w_umask w)) EmptyString]> (w_fs w))
          end
      end
  end.

(** [open(path, 'r')] and [open(path, 'w')]: the descriptor of the new
    file object. *)
Definition py_open (p : string) (md : open_mode) : M nat := fun w =>
  let q := resolve (w_cwd w) p in
  let fd := lowest_free (w_fds w) in
  match open_fs md w q with
  | inl e => (Raise (IOError e), w)
  | inr fs =>
      (Ok fd, log (EOpen q md fd)
                (set_fds (<[fd := (q, md)]> (w_fds w)) (set_fs fs w)))
  end.

(** Whether [open] succeeds on the entry [q]. *)
Definition openable (md : open_mode) (w : World) (q : string) : bool :=
  match open_fs md w q with
  | inr _ => true
  | inl _ => false
  end.

(** The world after a file at [q] was opened and closed again with nothing
    done to it in between. *)
Definition opened_and_closed (q : string) (md : open_mode) (w : World) : World :=
  log (EClose (lowest_free (w_fds w)))
    (log (EOpen q md (lowest_free (w_fds w))) w).

(** What [open(q, 'r').read()] gives: the content, or the error number of
    the [IOError]. *)
Definition read_file (w : World) (q : string) : errno + string :=
  match w_fs w !! q with
  | Some (File m d) => if owner_r m then inr d else inl EACCES
  | Some Dir => inl EISDIR
  | None => inl ENOENT
  end.

(** The descriptor table after [with open(...) as f: os.dup2(f.fileno(), k)]
    on a file described by [x]: opened on the lowest free number,
    duplicated onto [k], and the first descriptor closed again. *)
Definition redirect_fds (k : nat) (x : string * open_mode)
    (fds : gmap nat (string * open_mode)) : gmap nat (string * open_mode) :=
  delete (lowest_free fds) (<[k := x]> (<[lowest_free fds := x]> fds)).

(** [f.close()] *)
Definition file_close (fd : nat) : M unit := fun w =>
  (Ok tt, log (EClose fd) (set_fds (delete fd (w_fds w)) w)).

(** [f.read()]: the whole content. *)
Definition file_read (fd : nat) : M string := fun w =>
  match w_fds w !! fd with
  | Some (q, ORead) =>
      match w_fs w !! q with
      | Some (File _ d) => (Ok d, w)
      | _ => (Raise (IOError EBADF), w)
      end
  | _ => (Raise (IOError EBADF), w)
  end.

(** Writing [text] through a descriptor open for writing: the text goes to
    the end of the file. *)
Definition file_write (fd : nat) (text : string) : M unit := fun w =>
  match w_fds w !! fd with
  | Some (q, OWrite) =>
      match w_fs w !! q with
      | Some (File m d) =>
          (Ok tt, log (EWriteFd fd text) (set_fs (<[q := File m (d +:+ text)]> (w_fs w)) w))
      | _ => (Ok tt, log (EWriteFd fd text) w)
      end
  | _ => (Raise (IOError EBADF), w)
  end.

(** [print(text, file=f)] *)
Definition print_file (fd : nat) (text : string) : M unit :=
  file_write fd (text +:+ nl).

(** [with open(path, mode) as f: body]: the file is closed however the
    body ends. *)
Definition with_open {A} (p : string) (md : open_mode) (body : nat -> M A) : M A :=
  f ← py_open p md;
  ((fun w =>
      match body f w with
      | (r, w') => (r, snd (file_close f w'))
      end) : M A).

(** [os.dup2(src, dst)] *)
Definition os_dup2 (src dst : nat) : M unit := fun w =>
  match w_fds w !! src with
  | Some o => (Ok tt, log (EDup2 src dst) (set_fds (<[dst := o]> (w_fds w)) w))
  | None => (Raise (OSError EBADF), w)
  end.

(** [os.remove(path)] *)
Definition os_remove (p : string) : M unit := fun w =>
  let q := resolve (w_cwd w) p in
  match w_fs w !! q with
  | Some (File _ _) => (Ok tt, log (ERemove q) (set_fs (delete q (w_fs w)) w))
  | Some Dir => (Raise (OSError EPERM), w)
  | None => (Raise (OSError ENOENT), w)
  end.

(** Whether an integer can be passed where the system call takes a
    [pid_t] (a C [int]). *)
Definition fits_pid_t (n : Z) : bool :=
  (-2147483648 <=? n) && (n <=? 2147483647).

(** [os.kill(pid, signo)]: an integer that does not fit [pid_t] is refused
    with [OverflowError] before any system call; otherwise the call is
    made, and fails when no process can be signalled under that id. *)
Definition os_kill (pid signo : Z) : M unit := fun w =>
  if fits_pid_t pid then
    if bool_decide (pid ∈ w_procs w)
    then (Ok tt, log (EKill pid signo) w)
    else (Raise (OSError ESRCH), log (EKill pid signo) w)
  else (Raise OverflowError, w).

(** [atexit.register(cb)] *)
Definition atexit_register (cb : callback) : M unit := fun w =>
  (Ok tt, log (EAtexit cb) (set_atexit (cb :: w_atexit w) w)).

(** [signal.signal(signo, h)] *)
Definition signal_signal (signo : Z) (h : handler) : M unit := fun w =>
  (Ok tt, log (ESignal signo h) (set_handlers (<[signo := h]> (w_handlers w)) w)).

(** *** Closures kept by the runtime *)

(** Calling the registered [atexit] callback: [os.remove(self.pidfile)]. *)
Definition call_callback (cb : callback) : M unit :=
  match cb with
  | RemovePidfile self => os_remove (pidfile self)
  end.

(** [sigterm_handler(signo, frame)]: [raise SystemExit(1)]. *)
Definition call_handler (h : handler) (signo : Z) : M unit :=
  match h with
  | SigtermHandler => raise (SystemExit 1)
  end.

(** ** class Daemon *)

(** Text of [None] or of an integer, as [print] and [format] show it. *)
Definition str_pid (pid : option Z) : string :=
  match pid with
  | None => "None"
  | Some n => py_str n
  end.

(** The two [try: if os.fork() > 0: raise SystemExit(0) except OSError]
    blocks of [daemonize]. *)
Definition fork_or_exit (msg : string) : M unit :=
  try_except
    (r ← os_fork;
     if 0 <? r then raise (SystemExit 0) else mret tt)
    (fun e =>
       match e with
       | OSError _ => Some (raise (RuntimeError msg))
       | _ => None
       end).

(** Lines 50-53: [self.pid = os.getpid()], then the PID file is written. *)
Definition write_pidfile (self : Daemon) : M unit :=
  pid ← os_getpid;
  (fun w => (Ok tt, set_self_pid (Some pid) w)) ;;
  with_open (pidfile self) OWrite (fun f => print_file f (py_str pid)).

Definition daemonize (self : Daemon) : M unit :=
  fork_or_exit "fork #1 failed." ;;
  os_chdir "/" ;;
  os_umask 0 ;;
  os_setsid ;;
  fork_or_exit "fork #2 failed." ;;
  flush Stdout ;;
  flush Stderr ;;
  with_open (stdin self) ORead (fun f => os_dup2 f 0%nat) ;;
  with_open (stdout self) OWrite (fun f => os_dup2 f 1%nat) ;;
  with_open (stderr self) OWrite (fun f => os_dup2 f 2%nat) ;;
  write_pidfile self ;;
  atexit_register (RemovePidfile self) ;;
  signal_signal SIGTERM SigtermHandler.

(** The process once it is detached (lines 20-40 done): the grandchild
    [p], no longer a group leader, without controlling terminal, in the
    root directory with a zero mask. *)
Definition detached (p : positive) (l : list fork_outcome) (w : World) : World :=
  {| w_pid := Z.pos p; w_leader := false; w_ctty := false;
     w_cwd := "/"; w_umask := 0; w_fs := w_fs w;
     w_nocreate := w_nocreate w; w_fds := w_fds w; w_forks := l;
     w_procs := w_procs w; w_atexit := w_atexit w;
     w_handlers := w_handlers w; w_self_pid := w_self_pid w;
     w_trace := w_trace w ++
       [ EFork 0; EChdir "/"; EUmask 0; ESetsid; EFork 0;
         EFlush Stdout; EFlush Stderr ] |}.

Definition malformed_msg (self : Daemon) : string :=
  "Error: PID file " +:+ pidfile self +:+ " exists but PID is not a number.".

Definition _get_pid_from_file (self : Daemon) : M (option Z) :=
  try_except
    (with_open (pidfile self) ORead
       (fun f =>
          s ← file_read f;
          match py_int (strip s) with
          | Some n => mret (Some n)
          | None => raise ValueError
          end))
    (fun e =>
       match e with
       | IOError _ => Some (mret None)
       | ValueError =>
           Some (print Stdout (malformed_msg self) ;; raise (SystemExit 1))
       | _ => None
       end).

Definition already_running_msg (self : Daemon) (pid : Z) : string :=
  "Daemon already running...PID: " +:+ py_str pid +:+ ", PID file: "
    +:+ pidfile self +:+ nl.

Definition running_msg (self : Daemon) (pid : Z) : string :=
  "Daemon running...PID: " +:+ py_str pid +:+ ", PID file: "
    +:+ pidfile self +:+ nl.


Section Methods.

(** [self.run()] is the method of the concrete class. *)
Variable run : Daemon -> M unit.

Definition start (self : Daemon) : M unit :=
  pid ← _get_pid_from_file self;
  print Stdout (str_pid pid) ;;
  match pid with
  | None =>
      stream_write Stderr ("Daemon starting..." +:+ nl) ;;
      daemonize self ;;
      run self
  | Some p => stream_write Stderr (already_running_msg self p)
  end.

Definition status (self : Daemon) : M unit :=
  pid ← _get_pid_from_file self;
  match pid with
  | None => stream_write Stderr ("Daemon not running." +:+ nl)
  | Some p => stream_write Stderr (running_msg self p)
  end.

Definition stop (self : Daemon) : M unit :=
  pid ← _get_pid_from_file self;
  match pid with
  | None => stream_write Stderr ("Daemon not running." +:+ nl)
  | Some p =>
      stream_write Stderr ("Stopping daemon..." +:+ nl) ;;
      os_kill p SIGTERM
  end.

End Methods.

(** The state in which [start] enters [daemonize]: [None] printed, the
    starting notice written. *)
Definition starting (w : World) : World :=
  log (EWrite Stderr ("Daemon starting..." +:+ nl))
    (log (EWrite Stdout ("None" +:+ nl)) w).

(** The system calls of a successful [daemonize], in the order of the
    source, for the descriptors [f1]-[f4] the four [open] calls returned and
    the process id [pid] written. *)
Definition daemonize_calls (self : Daemon) (f1 f2 f3 f4 : nat) (pid : Z)
  : list event :=
  [ EFork 0; EChdir "/"; EUmask 0; ESetsid; EFork 0;
    EFlush Stdout; EFlush Stderr;
    EOpen (resolve "/" (stdin self)) ORead f1; EDup2 f1 0; EClose f1;
    EOpen (resolve "/" (stdout self)) OWrite f2; EDup2 f2 1; EClose f2;
    EOpen (resolve "/" (stderr self)) OWrite f3; EDup2 f3 2; EClose f3;
    EOpen (resolve "/" (pidfile self)) OWrite f4;
    EWriteFd f4 (py_str pid +:+ nl); EClose f4;
    EAtexit (RemovePidfile self); ESignal SIGTERM SigtermHandler ].

(** ** The interpreter around the program *)

Inductive termination :=
| Exited (status : Z)
| Killed (signo : Z)
| Running.

(** The callbacks registered with [atexit] run last-registered first; an
    exception in one does not stop the others. *)
Definition run_atexit (w : World) : World :=
  fold_left (fun w' cb => snd (call_callback cb w')) (w_atexit w)
    (set_atexit [] w).

Definition exit_status (r : res unit) : Z :=
  match r with
  | Ok _ => 0
  | Raise (SystemExit n) => n
  | Raise _ => 1
  end.

(** The program ends with result [r]: exit handlers, then the status. *)
Definition interpreter_exit (r : res unit) (w : World) : termination * World :=
  (Exited (exit_status r), run_atexit w).

(** A signal reaches the process.  Without a Python handler the default
    action (for SIGTERM: immediate termination, no exit handlers) applies;
    with one, the handler runs in the main thread and what it raises ends
    the program unless the running code catches it. *)
Definition deliver_signal (signo : Z) (w : World) : termination * World :=
  match w_handlers w !! signo with
  | None => (Killed signo, w)
  | Some h =>
      match call_handler h signo w with
      | (Ok _, w') => (Running, w')
      | (Raise e, w') => interpreter_exit (Raise e) w'
      end
  end.

(** Output written so far to one of the two streams. *)
Fixpoint output_of (s : stream) (t : list event) : string :=
  match t with
  | [] => EmptyString
  | EWrite s' text :: r =>
      match s, s' with
      | Stdout, Stdout | Stderr, Stderr => text +:+ output_of s r
      | _, _ => output_of s r
      end
  | _ :: r => output_of s r
  end.

Definition is_fork (e : event) : bool :=
  match e with EFork _ => true | _ => false end.
Definition is_signal (e : event) : bool :=
  match e with ESignal _ _ => true | _ => false end.

(** ** The module file *)

(** The top-level statements of daemon.py, in order (lines 4-11, 110). *)
Inductive top_stmt :=
| Docstring
| Import (name : string)
| FromFuture (feature : string)
| ClassDef (name : string)
| IfMain.

Definition daemon_py : list top_stmt :=
  [ Import "atexit"; FromFuture "print_function"; Import "os";
    Import "signal"; Import "sys"; Import "time"; ClassDef "Daemon";
    IfMain ].

(** The compiler's rule for future statements: only the module docstring
    and other future statements may come before one. *)
Fixpoint future_ok (header : bool) (l : list top_stmt) : bool :=
  match l with
  | [] => true
  | FromFuture _ :: r => header && future_ok header r
  | _ :: r => future_ok false r
  end.

Definition compile_module (l : list top_stmt) : res unit :=
  match l with
  | Docstring :: r =>
      if future_ok true r then Ok tt
      else Raise (SyntaxError "from __future__ imports must occur at the beginning of the file")
  | _ =>
      if future_ok true l then Ok tt
      else Raise (SyntaxError "from __future__ imports must occur at the beginning of the file")
  end.

(** Running or importing a module file: nothing of it executes unless it
    compiles. *)
Definition load_module {A} (src : list top_stmt) (body : M A) : M A :=
  match compile_module src with
  | Ok _ => body
  | Raise e => raise e
  end.

(** ** The self-test program *)

Definition hex_char (d : nat) : ascii :=
  if (d <? 10)%nat then ascii_of_nat (48 + d) else ascii_of_nat (87 + d).

Fixpoint contains_char (c : ascii) (s : string) : bool :=
  match s with
  | EmptyString => false
  | String c' r => Ascii.eqb c c' || contains_char c r
  end.

Definition dquote : ascii := ascii_of_nat 34.

Fixpoint repr_body (quote : ascii) (s : string) : string :=
  match s with
  | EmptyString => EmptyString
  | String c r =>
      let n := nat_of_ascii c in
      let rest := repr_body quote r in
      if Ascii.eqb c quote || Ascii.eqb c "\"
      then String "\" (String c rest)
      else if (n =? 9)%nat then String "\" (String "t" rest)
      else if (n =? 10)%nat then String "\" (String "n" rest)
      else if (n =? 13)%nat then String "\" (String "r" rest)
      else if (n <? 32)%nat || (127 <=? n)%nat
      then String "\" (String "x"
             (String (hex_char (n / 16)) (String (hex_char (n mod 16)) rest)))
      else String c rest
  end.

(** [repr(s)] of a byte string, as ['{0!r}'.format(s)] shows it. *)
Definition py_repr (s : string) : string :=
  let quote : ascii :=
    if contains_char "'" s && negb (contains_char dquote s) then dquote
    else "'"%char in
  String quote (repr_body quote s +:+ String quote EmptyString).

(** [MyDaemon(pidfile='/tmp/daemon.pid', stdout='/tmp/daemon.log',
    stderr='/tmp/daemon.log')] *)
Definition my_daemon : Daemon :=
  {| pidfile := "/tmp/daemon.pid"; stdin := "/dev/null";
     stdout := "/tmp/daemon.log"; stderr := "/tmp/daemon.log" |}.

(** [sys.argv[i]] *)
Definition argv_get (argv : list string) (i : nat) : M string :=
  match argv !! i with
  | Some a => mret a
  | None => raise IndexError
  end.

Definition show_usage (argv : list string) : M unit :=
  a0 ← argv_get argv 0%nat;
  print Stderr ("Usage: " +:+ a0 +:+ " " +:+ "start|stop|status").

Section Main.

(** [MyDaemon.run], the work loop of the concrete class. *)
Variable run : Daemon -> M unit.

(** The block under [if __name__ == '__main__']. *)
Definition main (argv : list string) : M unit :=
  (if bool_decide (List.length argv = 2%nat) then mret tt
   else show_usage argv ;; raise (SystemExit 1)) ;;
  a1 ← argv_get argv 1%nat;
  if String.eqb a1 "start" then start run my_daemon
  else if String.eqb a1 "stop" then stop my_daemon
  else if String.eqb a1 "status" then status my_daemon
  else
    print Stderr ("Unknown command: " +:+ py_repr a1) ;;
    show_usage argv ;;
    raise (SystemExit 1).

(** Running daemon.py as a script. *)
Definition run_script (argv : list string) : M unit :=
  load_module daemon_py (main argv).

End Main.

(** ** Sample states *)

Module Sample.

(** A login shell in /home/u: group leader with a terminal, mask 022,
    descriptors 0-2 on the terminal. *)
Definition world (fs : gmap string node) (forks : list fork_outcome)
    (procs : gset Z) : World :=
  {| w_pid := 100; w_leader := true; w_ctty := true;
     w_cwd := "/home/u"; w_umask := 18; w_fs := fs;
     w_nocreate := fun _ => None;
     w_fds := {[ 0%nat := ("/dev/tty", ORead); 1%nat := ("/dev/tty", OWrite);
                 2%nat := ("/dev/tty", OWrite) ]};
     w_forks := forks; w_procs := procs; w_atexit := [];
     w_handlers := ∅; w_self_pid := None; w_trace := [] |}.

Definition base_fs : gmap string node :=
  {[ "/" := Dir; "/tmp" := Dir; "/home/u" := Dir;
     "/dev/null" := File 438 EmptyString ]}.

(** No PID file; both forks continue in the child. *)
Definition fresh : World := world base_fs [InChild 101; InChild 102] ∅.

(** The first fork returns in the parent. *)
Definition parent : World := world base_fs [InParent 101] ∅.

(** The second fork returns in the session leader. *)
Definition leader : World := world base_fs [InChild 101; InParent 102] ∅.

(** A PID file naming the live process 1234. *)
Definition running : World :=
  world (<["/tmp/daemon.pid" := File 420 ("1234" +:+ nl)]> base_fs)
    [InChild 101; InChild 102] {[ 1234 ]}.

(** A PID file that does not hold a number. *)
Definition malformed : World :=
  world (<["/tmp/daemon.pid" := File 420 "abc"]> base_fs)
    [InChild 101; InChild 102] ∅.

(** A PID file the user may not read (mode 000). *)
Definition unreadable : World :=
  world (<["/tmp/daemon.pid" := File 0 ("1234" +:+ nl)]> base_fs)
    [InChild 101; InChild 102] {[ 1234 ]}.

(** The detached daemon 1234 about to write its PID file. *)
Definition about_to_write : World := detached 1234 [] fresh.






(** A PID file the user may write but not read (mode 0200), left by a
    running daemon. *)
Definition write_only : World :=
  world (<["/tmp/daemon.pid" := File 128 ("1234" +:+ nl)]> base_fs)
    [InChild 101; InChild 102] {[ 1234 ]}.


(** A work routine that returns at once. *)
Definition idle (self : Daemon) : M unit := mret tt.

End Sample.

(** * Results *)

(** ** Text: printing and parsing integers *)

Example py_str_1234 : py_str 1234 = "1234".
Proof. reflexivity. Qed.

Example py_str_negative : py_str (-907) = "-907".
Proof. reflexivity. Qed.

Example py_int_abc : py_int "abc" = None.
Proof. reflexivity. Qed.

Example py_int_padded : py_int ("  42" +:+ nl) = Some 42.
Proof. reflexivity. Qed.

Example py_repr_plain : py_repr "restart" = "'restart'".
Proof. reflexivity. Qed.

Section TextFacts.

Lemma digit_char_ok d :
  0 <= d < 10 -> isdigit (digit_char d) = true /\ digit_val (digit_char d) = d.
Proof.
  intros Hd.
  assert (d = 0 \/ d = 1 \/ d = 2 \/ d = 3 \/ d = 4 \/ d = 5 \/ d = 6
          \/ d = 7 \/ d = 8 \/ d = 9) as Hc by lia.
  repeat (destruct Hc as [-> | Hc]; [split; reflexivity |]).
  subst d; split; reflexivity.
Qed.

Lemma isdigit_not_space c : isdigit c = true -> isspace c = false.
Proof.
  unfold isdigit, isspace. intros H.
  apply andb_true_iff in H as [H1 H2].
  apply Nat.leb_le in H1.
  destruct (Nat.leb_spec 9 (nat_of_ascii c)), (Nat.leb_spec (nat_of_ascii c) 13),
    (Nat.eqb_spec (nat_of_ascii c) 32); simpl; try reflexivity; lia.
Qed.

Lemma isdigit_not_sign c :
  isdigit c = true -> Ascii.eqb c "-" = false /\ Ascii.eqb c "+" = false.
Proof.
  intros H. split; apply Ascii.eqb_neq; intros ->; discriminate H.
Qed.

Lemma log2_div10 n : 10 <= n -> Z.log2 (n / 10) < Z.log2 n.
Proof.
  intros Hn.
  assert (0 < n / 10) as Hq by (apply Z.div_str_pos; lia).
  assert (2 * (n / 10) <= n) as H2.
  { pose proof (Z.mul_div_le n 10). lia. }
  apply Z.log2_le_mono in H2.
  rewrite Z.log2_double in H2 by lia. lia.
Qed.

(** Parsing what [str_digits] produced in front of [acc] continues on
    [acc] with the number appended to the accumulator. *)
Lemma int_digits_str_digits f : forall n,
  0 <= n -> Z.log2 n <= Z.of_nat f ->
  exists m, forall acc a,
    int_digits (str_digits f n acc) a = int_digits acc (a * m + n).
Proof.
  induction f as [| f IH]; intros n Hn Hlog.
  - assert (n <= 1) as H1.
    { apply Z.log2_null. pose proof (Z.log2_nonneg n). lia. }
    exists 10. intros acc a. simpl.
    rewrite Z.mod_small by lia.
    destruct (digit_char_ok n) as [-> ->]; [lia |].
    f_equal. lia.
  - simpl. destruct (Z.ltb_spec n 10) as [Hlt | Hge].
    + exists 10. intros acc a. simpl.
      rewrite Z.mod_small by lia.
      destruct (digit_char_ok n) as [-> ->]; [lia |].
      f_equal. lia.
    + destruct (IH (n / 10)) as [m Hm].
      * apply Z.div_pos; lia.
      * pose proof (log2_div10 n Hge). lia.
      * exists (10 * m). intros acc a. rewrite Hm. simpl.
        destruct (digit_char_ok (n mod 10)) as [-> ->].
        { apply Z.mod_pos_bound. lia. }
        f_equal. pose proof (Z.div_mod n 10). lia.
Qed.

Lemma str_digits_all f : forall n acc,
  all_chars isdigit acc = true -> all_chars isdigit (str_digits f n acc) = true.
Proof.
  induction f as [| f IH]; intros n acc Hacc; simpl.
  - destruct (digit_char_ok (n mod 10)) as [-> _];
      [apply Z.mod_pos_bound; lia | exact Hacc].
  - assert (all_chars isdigit (String (digit_char (n mod 10)) acc) = true) as H.
    { simpl. destruct (digit_char_ok (n mod 10)) as [-> _];
        [apply Z.mod_pos_bound; lia | exact Hacc]. }
    destruct (n <? 10); [exact H | apply IH, H].
Qed.

Lemma str_digits_cons f : forall n acc,
  exists c r, str_digits f n acc = String c r.
Proof.
  induction f as [| f IH]; intros n acc; simpl.
  - eauto.
  - destruct (n <? 10); [eauto | apply IH].
Qed.

Lemma rstrip_spaces_app s t :
  all_chars (fun c => negb (isspace c)) s = true ->
  rstrip t = EmptyString ->
  rstrip (s +:+ t) = s.
Proof.
  intros Hs Ht. induction s as [| c r IH]; simpl in *.
  - exact Ht.
  - apply andb_true_iff in Hs as [Hc Hr].
    rewrite (IH Hr). apply negb_true_iff in Hc. rewrite Hc.
    destruct r; reflexivity.
Qed.

Lemma all_chars_impl (P Q : ascii -> bool) s :
  (forall c, P c = true -> Q c = true) ->
  all_chars P s = true -> all_chars Q s = true.
Proof.
  intros HPQ. induction s as [| c r IH]; simpl; [done |].
  intros H. apply andb_true_iff in H as [Hc Hr].
  rewrite (HPQ c Hc), (IH Hr). reflexivity.
Qed.

Lemma digits_no_space s :
  all_chars isdigit s = true ->
  all_chars (fun c => negb (isspace c)) s = true.
Proof.
  apply all_chars_impl. intros c Hc.
  rewrite (isdigit_not_space c Hc). reflexivity.
Qed.

Lemma strip_nospace c r t :
  isspace c = false ->
  all_chars (fun c => negb (isspace c)) r = true ->
  rstrip t = EmptyString ->
  strip (String c r +:+ t) = String c r.
Proof.
  intros Hc Hr Ht. unfold strip. simpl lstrip. rewrite Hc.
  change (String c (r +:+ t)) with (String c r +:+ t).
  apply rstrip_spaces_app; [| exact Ht].
  simpl. rewrite Hc. exact Hr.
Qed.

Lemma string_app_nil_r (s : string) : s +:+ EmptyString = s.
Proof.
  induction s as [| c r IH]; [done |].
  change (String c (r +:+ EmptyString) = String c r). by rewrite IH.
Qed.

(** [str(n)] starts with a digit or the minus sign and goes on with
    digits only. *)
Lemma py_str_shape n :
  exists c r, py_str n = String c r /\ isspace c = false
              /\ all_chars isdigit r = true.
Proof.
  unfold py_str. destruct (n <? 0).
  - eexists _, _. split; [reflexivity |]. split; [reflexivity |].
    apply str_digits_all. reflexivity.
  - destruct (str_digits_cons (Z.to_nat (Z.log2 n)) n EmptyString) as (c & r & E).
    pose proof (str_digits_all (Z.to_nat (Z.log2 n)) n EmptyString eq_refl) as Hall.
    rewrite E in *. simpl in Hall. apply andb_true_iff in Hall as [Hc Hr].
    exists c, r. auto using isdigit_not_space.
Qed.

Lemma strip_py_str_nl n : strip (py_str n +:+ nl) = py_str n.
Proof.
  destruct (py_str_shape n) as (c & r & -> & Hc & Hr).
  apply strip_nospace; [exact Hc | apply digits_no_space, Hr | reflexivity].
Qed.

Lemma strip_py_str n : strip (py_str n) = py_str n.
Proof.
  destruct (py_str_shape n) as (c & r & E & Hc & Hr).
  rewrite <- (string_app_nil_r (py_str n)) at 1. rewrite E.
  apply strip_nospace; [exact Hc | apply digits_no_space, Hr | reflexivity].
Qed.

Lemma int_digits_str_nat n :
  0 <= n ->
  int_digits (str_digits (Z.to_nat (Z.log2 n)) n EmptyString) 0 = Some n.
Proof.
  intros Hn.
  destruct (int_digits_str_digits (Z.to_nat (Z.log2 n)) n Hn) as [m Hm].
  { pose proof (Z.log2_nonneg n). lia. }
  rewrite Hm. simpl. reflexivity.
Qed.

(** [int(str(n)) == n] for every integer. *)
Lemma py_int_py_str n : py_int (py_str n) = Some n.
Proof.
  unfold py_int. rewrite strip_py_str. unfold py_str.
  destruct (Z.ltb_spec n 0) as [Hneg | Hpos].
  - change (Ascii.eqb "-" "-") with true. cbv iota.
    destruct (str_digits_cons (Z.to_nat (Z.log2 (- n))) (- n) EmptyString)
      as (c & r & E).
    rewrite E, <- E. rewrite int_digits_str_nat by lia.
    simpl. f_equal. lia.
  - destruct (str_digits_cons (Z.to_nat (Z.log2 n)) n EmptyString) as (c & r & E).
    pose proof (str_digits_all (Z.to_nat (Z.log2 n)) n EmptyString eq_refl) as Hall.
    rewrite E in Hall. simpl in Hall. apply andb_true_iff in Hall as [Hc _].
    rewrite E. destruct (isdigit_not_sign c Hc) as [-> ->].
    rewrite <- E. apply int_digits_str_nat, Hpos.
Qed.

End TextFacts.

(** ** Descriptors, computations *)

Ltac wsimpl :=
  cbn [w_pid w_leader w_ctty w_cwd w_umask w_fs w_nocreate w_fds w_forks
       w_procs w_atexit w_handlers w_self_pid w_trace
       set_trace set_fs set_fds set_cwd set_umask set_session set_forks
       set_child set_atexit set_handlers set_self_pid log fst snd].

Tactic Notation "wsimpl" "in" hyp(H) :=
  cbn [w_pid w_leader w_ctty w_cwd w_umask w_fs w_nocreate w_fds w_forks
       w_procs w_atexit w_handlers w_self_pid w_trace
       set_trace set_fs set_fds set_cwd set_umask set_session set_forks
       set_child set_atexit set_handlers set_self_pid log fst snd] in H.

Ltac wcompute :=
  lazy beta iota zeta delta
    [w_pid w_leader w_ctty w_cwd w_umask w_fs w_nocreate w_fds w_forks
     w_procs w_atexit w_handlers w_self_pid w_trace
     set_trace set_fs set_fds set_cwd set_umask set_session set_forks
     set_child set_atexit set_handlers set_self_pid log fst snd].

(** The descriptor [open] hands out is not in use. *)
Lemma lowest_free_free (fds : gmap nat (string * open_mode)) :
  fds !! lowest_free fds = None.
Proof.
  unfold lowest_free.
  destruct (List.find _ _) as [n |] eqn:E; simpl.
  - apply find_some in E as [_ E]. by apply bool_decide_eq_true in E.
  - exfalso.
    assert (set_seq 0 (S (size fds)) ⊆ (dom fds : gset nat)) as Hsub.
    { intros n Hn. apply elem_of_set_seq in Hn as [_ Hn].
      apply elem_of_dom.
      assert (In n (seq 0 (S (size fds)))) as Hin by (apply in_seq; lia).
      pose proof (find_none _ _ E n Hin) as Hb. simpl in Hb.
      apply bool_decide_eq_false in Hb.
      destruct (fds !! n); [eauto | done]. }
    apply subseteq_size in Hsub.
    rewrite size_set_seq, size_dom in Hsub. lia.
Qed.

Lemma bind_ok {A B} (m : M A) (k : A -> M B) w b w' :
  (m ≫= k) w = (Ok b, w') ->
  exists a w1, m w = (Ok a, w1) /\ k a w1 = (Ok b, w').
Proof.
  unfold mbind, M_bind, bind. destruct (m w) as [[a | e] w1]; [eauto | done].
Qed.

Lemma bind_run {A B} (m : M A) (k : A -> M B) w a w1 :
  m w = (Ok a, w1) -> (m ≫= k) w = k a w1.
Proof. unfold mbind, M_bind, bind. by intros ->. Qed.

Lemma bind_raise {A B} (m : M A) (k : A -> M B) w e w1 :
  m w = (Raise e, w1) -> (m ≫= k) w = (Raise e, w1).
Proof. unfold mbind, M_bind, bind. by intros ->. Qed.

(** *** The forks *)

Lemma fork_or_exit_child msg w p l :
  w_forks w = InChild p :: l ->
  fork_or_exit msg w = (Ok tt, log (EFork 0) (set_child (Z.pos p) (set_forks l w))).
Proof.
  intros H. unfold fork_or_exit, try_except, mbind, M_bind, bind, os_fork.
  rewrite H. reflexivity.
Qed.

Lemma fork_or_exit_parent msg w c l :
  w_forks w = InParent c :: l ->
  fork_or_exit msg w = (Raise (SystemExit 0), log (EFork (Z.pos c)) (set_forks l w)).
Proof.
  intros H. unfold fork_or_exit, try_except, mbind, M_bind, bind, os_fork.
  rewrite H. reflexivity.
Qed.

Lemma fork_or_exit_fails msg w :
  w_forks w = [] \/ (exists l, w_forks w = ForkFails :: l) ->
  exists w', fork_or_exit msg w = (Raise (RuntimeError msg), w')
             /\ w_trace w' = w_trace w /\ w_fs w' = w_fs w.
Proof.
  unfold fork_or_exit, try_except, mbind, M_bind, bind, os_fork, raise.
  intros [H | [l H]]; rewrite H; eauto.
Qed.

Lemma fork_or_exit_ok msg w w' :
  fork_or_exit msg w = (Ok tt, w') ->
  exists p l, w_forks w = InChild p :: l
              /\ w' = log (EFork 0) (set_child (Z.pos p) (set_forks l w)).
Proof.
  unfold fork_or_exit, try_except, mbind, M_bind, bind, os_fork.
  destruct (w_forks w) as [| [| c | p] l]; simpl; try discriminate.
  intros [= <-]. eauto.
Qed.

(** *** Files *)

Lemma with_open_eq {A} p md (body : nat -> M A) w :
  with_open p md body w =
  match open_fs md w (resolve (w_cwd w) p) with
  | inl e => (Raise (IOError e), w)
  | inr fs =>
      let fd := lowest_free (w_fds w) in
      let q := resolve (w_cwd w) p in
      let r := body fd (log (EOpen q md fd)
                          (set_fds (<[fd := (q, md)]> (w_fds w)) (set_fs fs w))) in
      (fst r, log (EClose fd) (set_fds (delete fd (w_fds (snd r))) (snd r)))
  end.
Proof.
  unfold with_open, mbind, M_bind, bind, py_open, file_close.
  destruct (open_fs md w _); [reflexivity |].
  cbv zeta. destruct (body _ _); reflexivity.
Qed.

(** [with open(p, md) as f: os.dup2(f.fileno(), k)] *)
Lemma redirect_eq p md k w :
  with_open p md (fun f => os_dup2 f k) w =
  match open_fs md w (resolve (w_cwd w) p) with
  | inl e => (Raise (IOError e), w)
  | inr fs =>
      let fd := lowest_free (w_fds w) in
      let q := resolve (w_cwd w) p in
      (Ok tt,
       log (EClose fd)
         (set_fds (delete fd (<[k := (q, md)]> (<[fd := (q, md)]> (w_fds w))))
            (log (EDup2 fd k)
               (log (EOpen q md fd) (set_fs fs w)))))
  end.
Proof.
  rewrite with_open_eq. destruct (open_fs md w _); [reflexivity |].
  cbv zeta. unfold os_dup2. wsimpl. rewrite lookup_insert_eq. wsimpl.
  reflexivity.
Qed.

Lemma open_fs_write_inv w q fs :
  open_fs OWrite w q = inr fs ->
  exists m, fs = <[q := File m EmptyString]> (w_fs w)
            /\ w_fs w !! q <> Some Dir
            /\ (w_fs w !! q = None ->
                m = create_mode (w_umask w) /\ w_nocreate w q = None)
            /\ (forall m' d, w_fs w !! q = Some (File m' d) ->
                m = m' /\ owner_w m' = true).
Proof.
  unfold open_fs. destruct (w_fs w !! q) as [[| m d] |] eqn:E.
  - done.
  - destruct (owner_w m) eqn:Hw; [| done]. intros [= <-].
    exists m. split; [done |]. split; [done |]. split; [done |].
    intros m' d' [= <- <-]. done.
  - destruct (w_nocreate w q) eqn:Hc; [done |]. intros [= <-].
    eexists. split; [done |]. split; [done |]. split; done.
Qed.

Lemma open_fs_read_inv w q fs :
  open_fs ORead w q = inr fs ->
  fs = w_fs w /\ exists m d, w_fs w !! q = Some (File m d) /\ owner_r m = true.
Proof.
  unfold open_fs. destruct (w_fs w !! q) as [[| m d] |]; try done.
  destruct (owner_r m) eqn:Hr; [| done]. intros [= <-]. eauto.
Qed.

(** [with open(p, 'w') as f: print(text, file=f)] when the file opens: it
    holds the text and a newline afterwards. *)
Lemma write_file_ok p text w m :
  open_fs OWrite w (resolve (w_cwd w) p)
    = inr (<[resolve (w_cwd w) p := File m EmptyString]> (w_fs w)) ->
  with_open p OWrite (fun f => print_file f text) w =
  let fd := lowest_free (w_fds w) in
  let q := resolve (w_cwd w) p in
  (Ok tt,
   log (EClose fd)
     (set_fds (delete fd (<[fd := (q, OWrite)]> (w_fds w)))
        (log (EWriteFd fd (text +:+ nl))
           (set_fs (<[q := File m (text +:+ nl)]> (w_fs w))
              (log (EOpen q OWrite fd) w))))).
Proof.
  intros E. rewrite with_open_eq, E.
  cbv zeta. unfold print_file, file_write. wsimpl.
  rewrite !lookup_insert_eq. wsimpl. rewrite insert_insert_eq.
  reflexivity.
Qed.

Lemma with_open_err {A} p md (body : nat -> M A) w e :
  open_fs md w (resolve (w_cwd w) p) = inl e ->
  with_open p md body w = (Raise (IOError e), w).
Proof. intros E. by rewrite with_open_eq, E. Qed.

(** *** Inverting a successful [daemonize] *)

Lemma os_chdir_ok p w w' :
  os_chdir p w = (Ok tt, w') ->
  w_fs w !! resolve (w_cwd w) p = Some Dir
  /\ w' = log (EChdir p) (set_cwd (resolve (w_cwd w) p) w).
Proof.
  unfold os_chdir. destruct (w_fs w !! _) as [[| m d] |]; try done.
  by intros [= <-].
Qed.

Lemma os_setsid_ok w w' :
  os_setsid w = (Ok tt, w') ->
  w_leader w = false /\ w' = log ESetsid (set_session w).
Proof.
  unfold os_setsid. destruct (w_leader w); [done |]. by intros [= <-].
Qed.

Lemma redirect_ok p md k w w' :
  with_open p md (fun f => os_dup2 f k) w = (Ok tt, w') ->
  exists fs,
    open_fs md w (resolve (w_cwd w) p) = inr fs
    /\ w' = log (EClose (lowest_free (w_fds w)))
              (set_fds (delete (lowest_free (w_fds w))
                          (<[k := (resolve (w_cwd w) p, md)]>
                             (<[lowest_free (w_fds w) := (resolve (w_cwd w) p, md)]>
                                (w_fds w))))
                 (log (EDup2 (lowest_free (w_fds w)) k)
                    (log (EOpen (resolve (w_cwd w) p) md (lowest_free (w_fds w)))
                       (set_fs fs w)))).
Proof.
  rewrite redirect_eq. destruct (open_fs md w _) as [e | fs]; [done |].
  cbv zeta. intros [= <-]. eauto.
Qed.

Lemma write_pidfile_ok self w w' :
  write_pidfile self w = (Ok tt, w') ->
  exists m,
    open_fs OWrite w (resolve (w_cwd w) (pidfile self))
      = inr (<[resolve (w_cwd w) (pidfile self) := File m EmptyString]> (w_fs w))
    /\ w' = log (EClose (lowest_free (w_fds w)))
              (set_fds (delete (lowest_free (w_fds w))
                          (<[lowest_free (w_fds w)
                               := (resolve (w_cwd w) (pidfile self), OWrite)]> (w_fds w)))
                 (log (EWriteFd (lowest_free (w_fds w)) (py_str (w_pid w) +:+ nl))
                    (set_fs (<[resolve (w_cwd w) (pidfile self)
                                 := File m (py_str (w_pid w) +:+ nl)]> (w_fs w))
                       (log (EOpen (resolve (w_cwd w) (pidfile self)) OWrite
                               (lowest_free (w_fds w)))
                          (set_self_pid (Some (w_pid w)) w))))).
Proof.
  unfold write_pidfile, os_getpid. unfold mbind at 1 2, M_bind, bind.
  destruct (open_fs OWrite (set_self_pid (Some (w_pid w)) w)
              (resolve (w_cwd w) (pidfile self))) as [e | fs] eqn:E.
  - rewrite (with_open_err _ _ _ _ e); [done | exact E].
  - pose proof E as E'. apply open_fs_write_inv in E' as (m & -> & _).
    wsimpl in E. rewrite (write_file_ok _ _ _ m); [| exact E].
    cbv zeta. wsimpl. intros [= <-]. exists m. split; [exact E | reflexivity].
Qed.

(** Everything a successful [daemonize] has done, in terms of the state
    it started from. *)
Lemma daemonize_ok_state self w w' :
  daemonize self w = (Ok tt, w') ->
  exists p1 p2 l m2 m3 m4,
    let fds1 := redirect_fds 0 (resolve "/" (stdin self), ORead) (w_fds w) in
    let fds2 := redirect_fds 1 (resolve "/" (stdout self), OWrite) fds1 in
    let fds3 := redirect_fds 2 (resolve "/" (stderr self), OWrite) fds2 in
    w_forks w = InChild p1 :: InChild p2 :: l
    /\ w_trace w' =
         (w_trace w ++
          daemonize_calls self (lowest_free (w_fds w)) (lowest_free fds1)
            (lowest_free fds2) (lowest_free fds3) (Z.pos p2))%list
    /\ w_fs w' =
         <[resolve "/" (pidfile self) := File m4 (py_str (Z.pos p2) +:+ nl)]>
           (<[resolve "/" (stderr self) := File m3 EmptyString]>
              (<[resolve "/" (stdout self) := File m2 EmptyString]> (w_fs w)))
    /\ w_fds w' = fds3
    /\ w_pid w' = Z.pos p2 /\ w_self_pid w' = Some (Z.pos p2)
    /\ w_cwd w' = "/" /\ w_umask w' = 0
    /\ w_leader w' = false /\ w_ctty w' = false
    /\ w_atexit w' = RemovePidfile self :: w_atexit w
    /\ w_handlers w' = <[SIGTERM := SigtermHandler]> (w_handlers w)
    /\ w_forks w' = l /\ w_nocreate w' = w_nocreate w
    /\ w_procs w' = w_procs w.
Proof.
  unfold daemonize. intros H.
  destruct w as [pid ld ct cwd um fs nc fds fk procs ax hd sp tr].
  apply bind_ok in H as ([] & w1 & H1 & H).
  apply fork_or_exit_ok in H1 as (p1 & l1 & Hf1 & ->).
  wsimpl in Hf1. subst fk. wsimpl in H.
  apply bind_ok in H as ([] & w2 & H2 & H).
  apply os_chdir_ok in H2 as [_ ->]. wsimpl in H.
  change (resolve cwd "/") with "/" in H.
  apply bind_ok in H as (? & w3 & H3 & H).
  unfold os_umask in H3. injection H3 as _ <-. wsimpl in H.
  apply bind_ok in H as ([] & w4 & H4 & H).
  apply os_setsid_ok in H4 as [_ ->]. wsimpl in H.
  apply bind_ok in H as ([] & w5 & H5 & H).
  apply fork_or_exit_ok in H5 as (p2 & l2 & Hf2 & ->).
  wsimpl in Hf2. subst l1. wsimpl in H.
  apply bind_ok in H as ([] & w6 & H6 & H).
  unfold flush in H6. injection H6 as <-. wsimpl in H.
  apply bind_ok in H as ([] & w7 & H7 & H).
  unfold flush in H7. injection H7 as <-. wsimpl in H.
  apply bind_ok in H as ([] & w8 & H8 & H).
  apply redirect_ok in H8 as (fs1 & E1 & ->). wsimpl in H.
  apply open_fs_read_inv in E1 as [-> _]. wsimpl in H.
  apply bind_ok in H as ([] & w9 & H9 & H).
  apply redirect_ok in H9 as (fs2 & E2 & ->). wsimpl in H.
  apply open_fs_write_inv in E2 as (m2 & -> & _). wsimpl in H.
  apply bind_ok in H as ([] & w10 & H10 & H).
  apply redirect_ok in H10 as (fs3 & E3 & ->). wsimpl in H.
  apply open_fs_write_inv in E3 as (m3 & -> & _). wsimpl in H.
  apply bind_ok in H as ([] & w11 & H11 & H).
  apply write_pidfile_ok in H11 as (m4 & _ & ->). wsimpl in H.
  apply bind_ok in H as ([] & w12 & H12 & H).
  unfold atexit_register in H12. injection H12 as <-. wsimpl in H.
  unfold signal_signal in H. injection H as <-.
  exists p1, p2, l2, m2, m3, m4. cbv zeta. wsimpl.
  unfold daemonize_calls, redirect_fds.
  rewrite (delete_insert_id _ (lowest_free _)) by apply lowest_free_free.
  repeat split; try reflexivity.
  rewrite <- !app_assoc. reflexivity.
Qed.

Lemma daemonize_ok_inv self w w' :
  daemonize self w = (Ok tt, w') ->
  exists p1 p2 l f1 f2 f3 f4 m,
    w_forks w = InChild p1 :: InChild p2 :: l
    /\ w_trace w' = (w_trace w ++ daemonize_calls self f1 f2 f3 f4 (Z.pos p2))%list
    /\ w_fs w' !! resolve "/" (pidfile self)
         = Some (File m (py_str (Z.pos p2) +:+ nl))
    /\ w_pid w' = Z.pos p2 /\ w_self_pid w' = Some (Z.pos p2)
    /\ w_cwd w' = "/" /\ w_umask w' = 0
    /\ w_leader w' = false /\ w_ctty w' = false
    /\ w_atexit w' = RemovePidfile self :: w_atexit w
    /\ w_handlers w' = <[SIGTERM := SigtermHandler]> (w_handlers w)
    /\ w_forks w' = l.
Proof.
  intros H. apply daemonize_ok_state in H
    as (p1 & p2 & l & m2 & m3 & m4 & Hf & Ht & Hfs & _ & Hrest).
  exists p1, p2, l. do 4 eexists. exists m4.
  split; [exact Hf |]. split; [exact Ht |].
  split; [rewrite Hfs; apply lookup_insert_eq |].
  destruct Hrest as (? & ? & ? & ? & ? & ? & ? & ? & ? & _). auto 12.
Qed.


Lemma redirect_fds_occupied k x (fds : gmap nat (string * open_mode)) :
  is_Some (fds !! k) -> redirect_fds k x fds = <[k := x]> fds.
Proof.
  intros [y Hy]. unfold redirect_fds.
  pose proof (lowest_free_free fds) as Hfree.
  assert (lowest_free fds <> k) as Hne by (intros E; rewrite E in Hfree; congruence).
  rewrite delete_insert_ne by exact Hne.
  by rewrite delete_insert_id.
Qed.


(** A free descriptor number is at least 3 when 0, 1 and 2 are in use. *)
Lemma lowest_free_std (fds : gmap nat (string * open_mode)) :
  is_Some (fds !! 0%nat) -> is_Some (fds !! 1%nat) -> is_Some (fds !! 2%nat) ->
  (3 <= lowest_free fds)%nat.
Proof.
  intros [? H0] [? H1] [? H2]. pose proof (lowest_free_free fds) as Hfree.
  destruct (lowest_free fds) as [| [| [| n]]]; [congruence .. | lia].
Qed.

Lemma insert_keeps_some (fds : gmap nat (string * open_mode)) i j x :
  is_Some (fds !! j) -> is_Some (<[i := x]> fds !! j).
Proof. intros H. apply lookup_insert_is_Some'. by right. Qed.

(** With descriptors 0-2 in use on entry, the state a successful
    [daemonize] leaves. *)
Lemma daemonize_ok_std self w w' :
  daemonize self w = (Ok tt, w') ->
  is_Some (w_fds w !! 0%nat) -> is_Some (w_fds w !! 1%nat) ->
  is_Some (w_fds w !! 2%nat) ->
  exists f1 f2 f3 f4 m,
    (3 <= f1)%nat /\ (3 <= f2)%nat /\ (3 <= f3)%nat /\ (3 <= f4)%nat
    /\ w_trace w' = (w_trace w ++ daemonize_calls self f1 f2 f3 f4 (w_pid w'))%list
    /\ w_fds w' =
         <[2%nat := (resolve "/" (stderr self), OWrite)]>
           (<[1%nat := (resolve "/" (stdout self), OWrite)]>
              (<[0%nat := (resolve "/" (stdin self), ORead)]> (w_fds w)))
    /\ w_fs w' !! resolve "/" (pidfile self)
         = Some (File m (py_str (w_pid w') +:+ nl))
    /\ w_atexit w' = RemovePidfile self :: w_atexit w
    /\ w_handlers w' = <[SIGTERM := SigtermHandler]> (w_handlers w)
    /\ w_cwd w' = "/" /\ w_umask w' = 0
    /\ w_leader w' = false /\ w_ctty w' = false
    /\ w_self_pid w' = Some (w_pid w').
Proof.
  intros H H0 H1 H2. apply daemonize_ok_state in H
    as (p1 & p2 & l & m2 & m3 & m4 & Hf & Ht & Hfs & Hfds & Hp & Hsp & Hcwd & Hum
        & Hld & Hct & Hax & Hh & _).
  cbv zeta in Ht, Hfds.
  rewrite (redirect_fds_occupied 0) in Ht, Hfds by exact H0.
  rewrite (redirect_fds_occupied 1) in Ht, Hfds by auto using insert_keeps_some.
  rewrite (redirect_fds_occupied 2) in Ht, Hfds by auto using insert_keeps_some.
  do 4 eexists. exists m4. rewrite Hp.
  split; [| split; [| split; [| split; [| split; [exact Ht |]]]]].
  5: { rewrite Hfs, lookup_insert_eq. auto 12. }
  all: apply lowest_free_std; auto 6 using insert_keeps_some.
Qed.

(** *** When [daemonize] succeeds *)

Lemma openable_ext md w w' q :
  w_fs w' = w_fs w -> w_nocreate w' = w_nocreate w ->
  openable md w' q = openable md w q.
Proof.
  intros Hfs Hnc. unfold openable, open_fs. rewrite Hfs, Hnc.
  destruct (w_fs w !! q) as [[| m d] |]; [done | |].
  - destruct md; [destruct (owner_r m) | destruct (owner_w m)]; done.
  - destruct md; [done |]. destruct (w_nocreate w q); done.
Qed.

(** Opening a file for writing under a zero mask leaves every path that
    could be opened for writing in that state. *)
Lemma openable_write_step w w1 q fs q' :
  open_fs OWrite w q = inr fs ->
  w_umask w = 0 ->
  w_fs w1 = fs -> w_nocreate w1 = w_nocreate w ->
  openable OWrite w q' = true ->
  openable OWrite w1 q' = true.
Proof.
  intros E Hu Hfs Hnc Hq'.
  apply open_fs_write_inv in E as (m & -> & Hd & Hnew & Hold).
  assert (owner_w m = true) as Hm.
  { destruct (w_fs w !! q) as [[| m' d] |] eqn:Eq.
    - done.
    - by destruct (Hold m' d eq_refl) as [-> ?].
    - destruct (Hnew eq_refl) as [-> _]. by rewrite Hu. }
  destruct (decide (q = q')) as [<- | Hne].
  - unfold openable, open_fs. rewrite Hfs, lookup_insert_eq, Hm. done.
  - unfold openable, open_fs in *. rewrite Hfs, Hnc, lookup_insert_ne by done.
    destruct (w_fs w !! q') as [[| m0 d0] |]; [done | |].
    + destruct (owner_w m0); done.
    + destruct (w_nocreate w q'); done.
Qed.

Lemma openable_inr md w q :
  openable md w q = true -> exists fs, open_fs md w q = inr fs.
Proof. unfold openable. destruct (open_fs md w q); [done | eauto]. Qed.

Lemma redirect_run p md k w :
  openable md w (resolve (w_cwd w) p) = true ->
  exists fs w',
    open_fs md w (resolve (w_cwd w) p) = inr fs
    /\ with_open p md (fun f => os_dup2 f k) w = (Ok tt, w')
    /\ w_fs w' = fs /\ w_nocreate w' = w_nocreate w
    /\ w_cwd w' = w_cwd w /\ w_umask w' = w_umask w.
Proof.
  intros H. apply openable_inr in H as [fs E].
  exists fs. eexists. split; [exact E |].
  rewrite redirect_eq, E. cbv zeta. split; [reflexivity |].
  wsimpl. done.
Qed.

Lemma write_pidfile_run self w :
  openable OWrite w (resolve (w_cwd w) (pidfile self)) = true ->
  exists w', write_pidfile self w = (Ok tt, w').
Proof.
  intros H. apply openable_inr in H as [fs E].
  pose proof E as E'. apply open_fs_write_inv in E' as (m & -> & _).
  unfold write_pidfile, os_getpid. unfold mbind at 1 2, M_bind, bind.
  rewrite (write_file_ok _ _ _ m); [| exact E]. eauto.
Qed.

(** The first seven steps of [daemonize] in the process that is the child
    of both forks. *)
Lemma detach_run {A} (k : M A) w p1 p2 l :
  w_forks w = InChild p1 :: InChild p2 :: l ->
  w_fs w !! "/" = Some Dir ->
  (fork_or_exit "fork #1 failed." ;; os_chdir "/" ;; os_umask 0 ;;
   os_setsid ;; fork_or_exit "fork #2 failed." ;;
   flush Stdout ;; flush Stderr ;; k) w
  = k (detached p2 l w).
Proof.
  intros Hf Hroot.
  destruct w as [pid ld ct cwd um fs nc fds fk procs ax hd sp tr].
  cbn [w_forks w_fs] in Hf, Hroot. subst fk.
  unfold fork_or_exit, try_except, os_fork, os_chdir, os_umask, os_setsid,
    flush, detached.
  unfold mbind, M_bind, bind, mret, M_ret, ret, raise.
  wcompute. change (0 <? 0) with false. wcompute.
  change (resolve cwd "/") with "/". rewrite Hroot. wcompute.
  change (0 <? 0) with false. wcompute.
  rewrite <- !app_assoc. reflexivity.
Qed.

(** The conditions under which the process the model follows gets through
    [daemonize]: it is the child of both forks, the root directory is
    there, and the four files can be opened. *)
Lemma daemonize_succeeds self w p1 p2 l :
  w_forks w = InChild p1 :: InChild p2 :: l ->
  w_fs w !! "/" = Some Dir ->
  openable ORead w (resolve "/" (stdin self)) = true ->
  openable OWrite w (resolve "/" (stdout self)) = true ->
  openable OWrite w (resolve "/" (stderr self)) = true ->
  openable OWrite w (resolve "/" (pidfile self)) = true ->
  exists w', daemonize self w = (Ok tt, w').
Proof.
  intros Hf Hroot Hin Hout Herr Hpid. unfold daemonize.
  rewrite (detach_run _ w p1 p2 l Hf Hroot).
  assert (w_fs (detached p2 l w) = w_fs w) as Hfs0 by reflexivity.
  assert (w_nocreate (detached p2 l w) = w_nocreate w) as Hnc0 by reflexivity.
  assert (w_cwd (detached p2 l w) = "/") as Hcwd0 by reflexivity.
  assert (w_umask (detached p2 l w) = 0) as Hum0 by reflexivity.
  generalize dependent (detached p2 l w). intros w0 Hfs0 Hnc0 Hcwd0 Hum0.
  destruct (redirect_run (stdin self) ORead 0%nat w0)
    as (fs1 & w1 & E1 & R1 & Hfs1 & Hnc1 & Hcwd1 & Hum1).
  { rewrite Hcwd0, (openable_ext _ w); [exact Hin | exact Hfs0 | exact Hnc0]. }
  rewrite (bind_run _ _ _ _ _ R1).
  apply open_fs_read_inv in E1 as [-> _].
  rewrite Hfs0 in Hfs1. rewrite Hnc0 in Hnc1.
  rewrite Hcwd0 in Hcwd1. rewrite Hum0 in Hum1.
  destruct (redirect_run (stdout self) OWrite 1%nat w1)
    as (fs2 & w2 & E2 & R2 & Hfs2 & Hnc2 & Hcwd2 & Hum2).
  { rewrite Hcwd1, (openable_ext _ w); [exact Hout | exact Hfs1 | exact Hnc1]. }
  rewrite (bind_run _ _ _ _ _ R2). rewrite Hcwd1 in E2.
  assert (forall q', openable OWrite w q' = true -> openable OWrite w2 q' = true)
    as Hkeep2.
  { intros q' Hq'.
    eapply (openable_write_step w1 w2 _ fs2);
      [exact E2 | exact Hum1 | exact Hfs2 | exact Hnc2 |].
    rewrite (openable_ext _ w); [exact Hq' | exact Hfs1 | exact Hnc1]. }
  destruct (redirect_run (stderr self) OWrite 2%nat w2)
    as (fs3 & w3 & E3 & R3 & Hfs3 & Hnc3 & Hcwd3 & Hum3).
  { rewrite Hcwd2, Hcwd1. apply Hkeep2, Herr. }
  rewrite (bind_run _ _ _ _ _ R3).
  assert (openable OWrite w3 (resolve (w_cwd w3) (pidfile self)) = true) as Hp3.
  { rewrite Hcwd3, Hcwd2, Hcwd1.
    eapply (openable_write_step w2 w3 _ fs3);
      [exact E3 | by rewrite Hum2 | exact Hfs3 | exact Hnc3 | apply Hkeep2, Hpid]. }
  destruct (write_pidfile_run self w3 Hp3) as [w4 R4].
  rewrite (bind_run _ _ _ _ _ R4).
  eexists. reflexivity.
Qed.

(** ** Reading the PID file *)

Lemma with_open_run {A} p md (body : nat -> M A) w fs r w2 :
  open_fs md w (resolve (w_cwd w) p) = inr fs ->
  body (lowest_free (w_fds w))
    (log (EOpen (resolve (w_cwd w) p) md (lowest_free (w_fds w)))
       (set_fds (<[lowest_free (w_fds w) := (resolve (w_cwd w) p, md)]> (w_fds w))
          (set_fs fs w))) = (r, w2) ->
  with_open p md body w
  = (r, log (EClose (lowest_free (w_fds w)))
          (set_fds (delete (lowest_free (w_fds w)) (w_fds w2)) w2)).
Proof.
  intros E Hb. rewrite with_open_eq, E. cbv zeta. rewrite Hb. reflexivity.
Qed.

(** What [_get_pid_from_file] returns and leaves behind, by the state of
    the PID file. *)
Lemma get_pid_eq self w :
  _get_pid_from_file self w =
  match read_file w (resolve (w_cwd w) (pidfile self)) with
  | inl _ => (Ok None, w)
  | inr d =>
      let w1 := opened_and_closed (resolve (w_cwd w) (pidfile self)) ORead w in
      match py_int (strip d) with
      | Some n => (Ok (Some n), w1)
      | None =>
          (Raise (SystemExit 1), log (EWrite Stdout (malformed_msg self +:+ nl)) w1)
      end
  end.
Proof.
  unfold _get_pid_from_file, try_except, read_file.
  destruct (w_fs w !! resolve (w_cwd w) (pidfile self)) as [[| m d] |] eqn:E.
  - rewrite (with_open_err _ _ _ _ EISDIR); [done | by unfold open_fs; rewrite E].
  - destruct (owner_r m) eqn:Hr.
    + destruct (py_int (strip d)) as [n |] eqn:Hp.
      all: erewrite with_open_run;
        [| unfold open_fs; rewrite E, Hr; reflexivity
         | unfold mbind, M_bind, bind, file_read; wsimpl;
           rewrite lookup_insert_eq, E, Hp; reflexivity ].
      all: pose proof (lowest_free_free (w_fds w)) as Hfree.
      all: unfold opened_and_closed.
      all: destruct w as [pid ld ct cwd um fs nc fds fk procs ax hd sp tr].
      all: wsimpl in Hfree; wsimpl.
      all: rewrite (delete_insert_id _ _ _ Hfree); reflexivity.
    + rewrite (with_open_err _ _ _ _ EACCES); [done |].
      unfold open_fs. by rewrite E, Hr.
  - rewrite (with_open_err _ _ _ _ ENOENT); [done | by unfold open_fs; rewrite E].
Qed.

Lemma read_file_open w q :
  open_fs ORead w q =
  match read_file w q with
  | inl e => inl e
  | inr _ => inr (w_fs w)
  end.
Proof.
  unfold open_fs, read_file.
  destruct (w_fs w !! q) as [[| m d] |]; try reflexivity.
  destruct (owner_r m); reflexivity.
Qed.



(** ** start, stop, status by the state of the PID file *)

Section Lifecycle.

Variable run : Daemon -> M unit.

Lemma start_eq self w :
  start run self w =
  match read_file w (resolve (w_cwd w) (pidfile self)) with
  | inl _ =>
      match daemonize self (starting w) with
      | (Ok _, w') => run self w'
      | (Raise e, w') => (Raise e, w')
      end
  | inr d =>
      let w1 := opened_and_closed (resolve (w_cwd w) (pidfile self)) ORead w in
      match py_int (strip d) with
      | Some n =>
          (Ok tt, log (EWrite Stderr (already_running_msg self n))
                    (log (EWrite Stdout (py_str n +:+ nl)) w1))
      | None =>
          (Raise (SystemExit 1), log (EWrite Stdout (malformed_msg self +:+ nl)) w1)
      end
  end.
Proof.
  unfold start. unfold mbind at 1, M_bind at 1, bind at 1.
  rewrite get_pid_eq.
  destruct (read_file w _) as [e | d]; [reflexivity |].
  cbv zeta. destruct (py_int (strip d)); reflexivity.
Qed.

Lemma status_eq self w :
  status self w =
  match read_file w (resolve (w_cwd w) (pidfile self)) with
  | inl _ => (Ok tt, log (EWrite Stderr ("Daemon not running." +:+ nl)) w)
  | inr d =>
      let w1 := opened_and_closed (resolve (w_cwd w) (pidfile self)) ORead w in
      match py_int (strip d) with
      | Some n => (Ok tt, log (EWrite Stderr (running_msg self n)) w1)
      | None =>
          (Raise (SystemExit 1), log (EWrite Stdout (malformed_msg self +:+ nl)) w1)
      end
  end.
Proof.
  unfold status. unfold mbind at 1, M_bind at 1, bind at 1.
  rewrite get_pid_eq.
  destruct (read_file w _) as [e | d]; [reflexivity |].
  cbv zeta. destruct (py_int (strip d)); reflexivity.
Qed.

Lemma stop_eq self w :
  stop self w =
  match read_file w (resolve (w_cwd w) (pidfile self)) with
  | inl _ => (Ok tt, log (EWrite Stderr ("Daemon not running." +:+ nl)) w)
  | inr d =>
      let w1 := opened_and_closed (resolve (w_cwd w) (pidfile self)) ORead w in
      match py_int (strip d) with
      | Some n =>
          let w2 := log (EWrite Stderr ("Stopping daemon..." +:+ nl)) w1 in
          if fits_pid_t n then
            (if bool_decide (n ∈ w_procs w) then Ok tt else Raise (OSError ESRCH),
             log (EKill n SIGTERM) w2)
          else (Raise OverflowError, w2)
      | None =>
          (Raise (SystemExit 1), log (EWrite Stdout (malformed_msg self +:+ nl)) w1)
      end
  end.
Proof.
  unfold stop. unfold mbind at 1, M_bind at 1, bind at 1.
  rewrite get_pid_eq.
  destruct (read_file w _) as [e | d]; [reflexivity |].
  cbv zeta. destruct (py_int (strip d)) as [n |]; [| reflexivity].
  unfold mbind, M_bind, bind, stream_write, os_kill. wsimpl.
  destruct (fits_pid_t n); [| reflexivity].
  destruct (bool_decide _); reflexivity.
Qed.

End Lifecycle.

(** ** The order of the daemonization steps *)

Lemma daemonize_parent_exits self w c l :
  w_forks w = InParent c :: l ->
  daemonize self w
  = (Raise (SystemExit 0), log (EFork (Z.pos c)) (set_forks l w)).
Proof.
  intros H. unfold daemonize.
  apply bind_raise, fork_or_exit_parent, H.
Qed.

Lemma daemonize_leader_exits self w p1 c l :
  w_forks w = InChild p1 :: InParent c :: l ->
  w_fs w !! "/" = Some Dir ->
  exists w',
    daemonize self w = (Raise (SystemExit 0), w')
    /\ w_trace w' = (w_trace w ++
         [EFork 0; EChdir "/"; EUmask 0; ESetsid; EFork (Z.pos c)])%list
    /\ w_fs w' = w_fs w /\ w_fds w' = w_fds w
    /\ w_atexit w' = w_atexit w /\ w_handlers w' = w_handlers w.
Proof.
  intros Hf Hroot.
  destruct w as [pid ld ct cwd um fs nc fds fk procs ax hd sp tr].
  cbn [w_forks w_fs] in Hf, Hroot. subst fk.
  eexists. split.
  - unfold daemonize.
    unfold fork_or_exit, try_except, os_fork, os_chdir, os_umask, os_setsid.
    unfold mbind, M_bind, bind, mret, M_ret, ret, raise.
    wcompute. change (0 <? 0) with false. wcompute.
    change (resolve cwd "/") with "/". rewrite Hroot. wcompute.
    change (0 <? Z.pos c) with true. wcompute. reflexivity.
  - wsimpl. split; [| repeat split]. rewrite <- !app_assoc. reflexivity.
Qed.

(** C1. [daemonize] performs the detach steps in the order of the POSIX
    recipe.  In the parent of the first fork it ends with [SystemExit(0)]
    after that fork alone; in the session leader it ends with
    [SystemExit(0)] after fork, chdir to the root, umask 0, setsid and the
    second fork, with files, descriptors and handlers untouched.  When it
    returns normally, in a process that had descriptors 0, 1 and 2 open,
    the calls made are exactly, in order: fork, chdir, umask, setsid, fork,
    the two flushes, the three redirections, the write of the process id
    to the PID file, the registration of the cleanup and the installation
    of the SIGTERM handler; and the state is the one these calls leave:
    descriptors 0, 1, 2 on the three targets (the descriptors used for
    opening were other numbers and are closed again), the PID file holding
    the process id, the cleanup first among the exit handlers, the handler
    installed for SIGTERM, the working directory the root, the mask zero,
    no controlling terminal.  [start] calls [run] only on the state a
    normal return of [daemonize] leaves. *)
Theorem daemonize_steps_in_order (run : Daemon -> M unit) self w :
  (forall c l,
      w_forks w = InParent c :: l ->
      daemonize self w
      = (Raise (SystemExit 0), log (EFork (Z.pos c)) (set_forks l w)))
  /\ (forall p1 c l,
         w_forks w = InChild p1 :: InParent c :: l ->
         w_fs w !! "/" = Some Dir ->
         exists w',
           daemonize self w = (Raise (SystemExit 0), w')
           /\ w_trace w' = (w_trace w ++
                [EFork 0; EChdir "/"; EUmask 0; ESetsid; EFork (Z.pos c)])%list
           /\ w_fs w' = w_fs w /\ w_fds w' = w_fds w
           /\ w_atexit w' = w_atexit w /\ w_handlers w' = w_handlers w)
  /\ (forall w',
         daemonize self w = (Ok tt, w') ->
         is_Some (w_fds w !! 0%nat) -> is_Some (w_fds w !! 1%nat) ->
         is_Some (w_fds w !! 2%nat) ->
         exists f1 f2 f3 f4 m,
           (3 <= f1)%nat /\ (3 <= f2)%nat /\ (3 <= f3)%nat /\ (3 <= f4)%nat
           /\ w_trace w' = (w_trace w
                            ++ daemonize_calls self f1 f2 f3 f4 (w_pid w'))%list
           /\ w_fds w' =
                <[2%nat := (resolve "/" (stderr self), OWrite)]>
                  (<[1%nat := (resolve "/" (stdout self), OWrite)]>
                     (<[0%nat := (resolve "/" (stdin self), ORead)]> (w_fds w)))
           /\ w_fs w' !! resolve "/" (pidfile self)
                = Some (File m (py_str (w_pid w') +:+ nl))
           /\ w_atexit w' = RemovePidfile self :: w_atexit w
           /\ w_handlers w' = <[SIGTERM := SigtermHandler]> (w_handlers w)
           /\ w_cwd w' = "/" /\ w_umask w' = 0
           /\ w_leader w' = false /\ w_ctty w' = false
           /\ w_self_pid w' = Some (w_pid w'))
  /\ (w_fs w !! resolve (w_cwd w) (pidfile self) = None ->
      start run self w =
      match daemonize self (starting w) with
      | (Ok _, w') => run self w'
      | (Raise e, w') => (Raise e, w')
      end).
Proof.
  split; [| split; [| split]].
  - intros c l H. by apply daemonize_parent_exits.
  - intros p1 c l Hf Hroot. by apply (daemonize_leader_exits self w p1 c l).
  - intros w' H H0 H1 H2. by apply daemonize_ok_std.
  - intros Habs. rewrite start_eq. unfold read_file. by rewrite Habs.
Qed.

Lemma daemonize_steps_in_order_witness :
  daemonize my_daemon Sample.parent
    = (Raise (SystemExit 0),
       log (EFork 101) (set_forks [] Sample.parent))
  /\ (exists w',
         daemonize my_daemon Sample.leader = (Raise (SystemExit 0), w')
         /\ w_trace w' = [EFork 0; EChdir "/"; EUmask 0; ESetsid; EFork 102])
  /\ (exists f1 f2 f3 f4 m,
         (3 <= f1)%nat /\ (3 <= f2)%nat /\ (3 <= f3)%nat /\ (3 <= f4)%nat
         /\ w_trace (snd (daemonize my_daemon Sample.fresh))
            = daemonize_calls my_daemon f1 f2 f3 f4 102
         /\ w_fds (snd (daemonize my_daemon Sample.fresh)) =
              <[2%nat := ("/tmp/daemon.log", OWrite)]>
                (<[1%nat := ("/tmp/daemon.log", OWrite)]>
                   (<[0%nat := ("/dev/null", ORead)]> (w_fds Sample.fresh)))
         /\ w_fs (snd (daemonize my_daemon Sample.fresh)) !! "/tmp/daemon.pid"
            = Some (File m ("102" +:+ nl))
         /\ w_atexit (snd (daemonize my_daemon Sample.fresh))
            = [RemovePidfile my_daemon]
         /\ w_handlers (snd (daemonize my_daemon Sample.fresh))
            = {[ SIGTERM := SigtermHandler ]})
  /\ start Sample.idle my_daemon Sample.fresh
     = Sample.idle my_daemon (snd (daemonize my_daemon (starting Sample.fresh))).
Proof.
  destruct (daemonize_steps_in_order Sample.idle my_daemon Sample.parent)
    as (H1 & _).
  destruct (daemonize_steps_in_order Sample.idle my_daemon Sample.leader)
    as (_ & H2 & _).
  destruct (daemonize_steps_in_order Sample.idle my_daemon Sample.fresh)
    as (_ & _ & H3 & H4).
  split; [apply (H1 101%positive []); reflexivity |].
  split.
  { destruct (H2 101%positive 102%positive []) as (w' & Hd & Ht & _);
      [reflexivity | reflexivity | eauto]. }
  split.
  - destruct (H3 (snd (daemonize my_daemon Sample.fresh)))
      as (f1 & f2 & f3 & f4 & m & G1 & G2 & G3 & G4 & Ht & Hfds & Hfs & Hax & Hh & _).
    + vm_compute. reflexivity.
    + vm_compute. eauto.
    + vm_compute. eauto.
    + vm_compute. eauto.
    + exists f1, f2, f3, f4, m. repeat split; assumption.
  - rewrite H4; [| vm_compute; reflexivity]. vm_compute. reflexivity.
Defined.

(** ** Loading the module *)

(** C2. daemon.py does not compile: [from __future__ import
    print_function] comes after [import atexit], so the compiler rejects
    the file with a [SyntaxError]; whatever is asked of the module (running
    it with any arguments, or importing it to use [start], [stop], [status]
    or [run]), nothing of it executes and the state is left as it was. *)
Theorem module_does_not_load :
  compile_module daemon_py
    = Raise (SyntaxError "from __future__ imports must occur at the beginning of the file")
  /\ (forall (A : Type) (body : M A) (w : World),
         load_module daemon_py body w
         = (Raise (SyntaxError "from __future__ imports must occur at the beginning of the file"), w))
  /\ (forall run argv w,
         run_script run argv w
         = (Raise (SyntaxError "from __future__ imports must occur at the beginning of the file"), w)).
Proof. repeat split. Qed.

(** ** Starting *)

(** When the PID file cannot be read (it is absent, or [open] fails on it
    for another reason) and the process is the child of both forks with
    the root directory and the four files available, [start] goes through
    [daemonize] and reaches [run]. *)
Lemma start_unread_daemonizes (run : Daemon -> M unit) self w e p1 p2 l :
  read_file w (resolve (w_cwd w) (pidfile self)) = inl e ->
  w_forks w = InChild p1 :: InChild p2 :: l ->
  w_fs w !! "/" = Some Dir ->
  openable ORead w (resolve "/" (stdin self)) = true ->
  openable OWrite w (resolve "/" (stdout self)) = true ->
  openable OWrite w (resolve "/" (stderr self)) = true ->
  openable OWrite w (resolve "/" (pidfile self)) = true ->
  exists w' m f1 f2 f3 f4,
    daemonize self (starting w) = (Ok tt, w')
    /\ start run self w = run self w'
    /\ w_fs w' !! resolve (w_cwd w') (pidfile self)
       = Some (File m (py_str (w_pid w') +:+ nl))
    /\ py_int (strip (py_str (w_pid w') +:+ nl)) = Some (w_pid w')
    /\ w_pid w' = Z.pos p2 /\ 0 < w_pid w'
    /\ w_cwd w' = "/"
    /\ w_trace w' =
         (w_trace w ++
          [ EWrite Stdout ("None" +:+ nl);
            EWrite Stderr ("Daemon starting..." +:+ nl) ] ++
          daemonize_calls self f1 f2 f3 f4 (Z.pos p2))%list.
Proof.
  intros Hrd Hf Hroot Hin Hout Herr Hpid.
  destruct (daemonize_succeeds self (starting w) p1 p2 l) as [w' Hd];
    [exact Hf | exact Hroot | exact Hin | exact Hout | exact Herr | exact Hpid |].
  pose proof Hd as Hinv.
  apply daemonize_ok_inv in Hinv
    as (q1 & q2 & l' & f1 & f2 & f3 & f4 & m & Hf' & Ht & Hfs & Hp & _ & Hcwd & _).
  change (w_forks (starting w)) with (w_forks w) in Hf'.
  rewrite Hf in Hf'. injection Hf' as _ <- _.
  exists w', m, f1, f2, f3, f4. split; [exact Hd |]. split.
  - rewrite start_eq, Hrd, Hd. reflexivity.
  - rewrite Hcwd, Hp. split; [exact Hfs |].
    rewrite strip_py_str_nl. split; [apply py_int_py_str |].
    split; [reflexivity |]. split; [lia |]. split; [reflexivity |].
    rewrite Ht. unfold starting. wsimpl. rewrite <- !app_assoc. reflexivity.
Qed.

(** C3. When the PID file is absent, and the process is the child of both
    forks with the root directory and the four files available, [start]
    goes through [daemonize] and calls [run] in a state where the PID file
    (as the daemon, now in the root directory, names it) exists and holds
    the decimal text of the daemon's own process id: the id the second
    fork gave, a positive integer, which reading the text back yields. *)
Theorem start_absent_writes_pid (run : Daemon -> M unit) self w p1 p2 l :
  w_fs w !! resolve (w_cwd w) (pidfile self) = None ->
  w_forks w = InChild p1 :: InChild p2 :: l ->
  w_fs w !! "/" = Some Dir ->
  openable ORead w (resolve "/" (stdin self)) = true ->
  openable OWrite w (resolve "/" (stdout self)) = true ->
  openable OWrite w (resolve "/" (stderr self)) = true ->
  openable OWrite w (resolve "/" (pidfile self)) = true ->
  exists w' m,
    daemonize self (starting w) = (Ok tt, w')
    /\ start run self w = run self w'
    /\ w_fs w' !! resolve (w_cwd w') (pidfile self)
       = Some (File m (py_str (w_pid w') +:+ nl))
    /\ py_int (strip (py_str (w_pid w') +:+ nl)) = Some (w_pid w')
    /\ w_pid w' = Z.pos p2 /\ 0 < w_pid w'.
Proof.
  intros Habs Hf Hroot Hin Hout Herr Hpid.
  destruct (start_unread_daemonizes run self w ENOENT p1 p2 l)
    as (w' & m & f1 & f2 & f3 & f4 & H1 & H2 & H3 & H4 & H5 & H6 & _);
    try assumption.
  { unfold read_file. by rewrite Habs. }
  exists w', m. auto 8.
Qed.

Lemma start_absent_writes_pid_witness :
  exists w' m,
    daemonize my_daemon (starting Sample.fresh) = (Ok tt, w')
    /\ start Sample.idle my_daemon Sample.fresh = Sample.idle my_daemon w'
    /\ w_fs w' !! resolve (w_cwd w') "/tmp/daemon.pid"
       = Some (File m (py_str (w_pid w') +:+ nl))
    /\ py_int (strip (py_str (w_pid w') +:+ nl)) = Some (w_pid w')
    /\ w_pid w' = 102 /\ 0 < w_pid w'.
Proof.
  apply (start_absent_writes_pid Sample.idle my_daemon Sample.fresh
           101%positive 102%positive []); vm_compute; reflexivity.
Defined.

(** C10. Every [IOError] from opening the PID file, not only the one for a
    missing file, makes [_get_pid_from_file] return [None] with nothing
    changed.  So with a PID file that exists but may not be read (and that
    the daemon may write), in the process that is the child of both forks
    with the root directory and the redirection targets available,
    [start] reports nothing as running: it writes the starting notice,
    forks and detaches, overwrites the PID file with the new process id
    and calls [run], a second instance. *)
Theorem unreadable_pidfile_counts_as_absent (run : Daemon -> M unit) self w m d p1 p2 l :
  w_fs w !! resolve (w_cwd w) (pidfile self) = Some (File m d) ->
  owner_r m = false ->
  w_forks w = InChild p1 :: InChild p2 :: l ->
  w_fs w !! "/" = Some Dir ->
  openable ORead w (resolve "/" (stdin self)) = true ->
  openable OWrite w (resolve "/" (stdout self)) = true ->
  openable OWrite w (resolve "/" (stderr self)) = true ->
  openable OWrite w (resolve "/" (pidfile self)) = true ->
  (forall w0 e,
      read_file w0 (resolve (w_cwd w0) (pidfile self)) = inl e ->
      _get_pid_from_file self w0 = (Ok None, w0))
  /\ read_file w (resolve (w_cwd w) (pidfile self)) = inl EACCES
  /\ _get_pid_from_file self w = (Ok None, w)
  /\ exists w' m' f1 f2 f3 f4,
       daemonize self (starting w) = (Ok tt, w')
       /\ start run self w = run self w'
       /\ w_fs w' !! resolve "/" (pidfile self)
          = Some (File m' (py_str (Z.pos p2) +:+ nl))
       /\ w_pid w' = Z.pos p2
       /\ w_trace w' =
            (w_trace w ++
             [ EWrite Stdout ("None" +:+ nl);
               EWrite Stderr ("Daemon starting..." +:+ nl) ] ++
             daemonize_calls self f1 f2 f3 f4 (Z.pos p2))%list.
Proof.
  intros Hfile Hr Hf Hroot Hin Hout Herr Hpid.
  assert (read_file w (resolve (w_cwd w) (pidfile self)) = inl EACCES) as Hrd.
  { unfold read_file. by rewrite Hfile, Hr. }
  split; [| split; [exact Hrd | split]].
  - intros w0 e H. by rewrite get_pid_eq, H.
  - by rewrite get_pid_eq, Hrd.
  - destruct (start_unread_daemonizes run self w EACCES p1 p2 l)
      as (w' & m' & f1 & f2 & f3 & f4 & H1 & H2 & H3 & _ & H5 & _ & H7 & H8);
      try assumption.
    exists w', m', f1, f2, f3, f4. rewrite H7, H5 in H3. auto 8.
Qed.

Lemma unreadable_pidfile_counts_as_absent_witness :
  _get_pid_from_file my_daemon Sample.write_only = (Ok None, Sample.write_only)
  /\ exists w' m',
       start Sample.idle my_daemon Sample.write_only = Sample.idle my_daemon w'
       /\ w_fs Sample.write_only !! "/tmp/daemon.pid"
          = Some (File 128 ("1234" +:+ nl))
       /\ w_fs w' !! "/tmp/daemon.pid" = Some (File m' ("102" +:+ nl))
       /\ existsb is_fork (w_trace w') = true.
Proof.
  destruct (unreadable_pidfile_counts_as_absent Sample.idle my_daemon
              Sample.write_only 128 ("1234" +:+ nl) 101%positive 102%positive [])
    as (_ & _ & Hg & w' & m' & f1 & f2 & f3 & f4 & Hd & Hs & Hfs & _ & Ht);
    try (vm_compute; reflexivity).
  split; [exact Hg |]. exists w', m'.
  split; [exact Hs |]. split; [vm_compute; reflexivity |].
  split; [exact Hfs |]. rewrite Ht. reflexivity.
Defined.

(** ** A malformed PID file *)

(** C5. When the PID file can be read and its content is not an integer,
    [start], [stop] and [status] each end with [SystemExit(1)] after the
    file was opened and closed and the malformed-PID message was printed:
    no fork, no signal, and the file system, the descriptors, the pending
    forks, the exit handlers and the signal handlers are as before. *)
Theorem malformed_pidfile_aborts (run : Daemon -> M unit) self w d :
  read_file w (resolve (w_cwd w) (pidfile self)) = inr d ->
  py_int (strip d) = None ->
  let w' := log (EWrite Stdout (malformed_msg self +:+ nl))
              (opened_and_closed (resolve (w_cwd w) (pidfile self)) ORead w) in
  start run self w = (Raise (SystemExit 1), w')
  /\ stop self w = (Raise (SystemExit 1), w')
  /\ status self w = (Raise (SystemExit 1), w')
  /\ exit_status (Raise (SystemExit 1)) <> 0
  /\ w_fs w' = w_fs w /\ w_fds w' = w_fds w /\ w_forks w' = w_forks w
  /\ w_pid w' = w_pid w /\ w_atexit w' = w_atexit w
  /\ w_handlers w' = w_handlers w
  /\ w_trace w' = (w_trace w ++
       [ EOpen (resolve (w_cwd w) (pidfile self)) ORead (lowest_free (w_fds w));
         EClose (lowest_free (w_fds w));
         EWrite Stdout (malformed_msg self +:+ nl) ])%list.
Proof.
  intros Hr Hp w'. subst w'.
  rewrite start_eq, stop_eq, status_eq, Hr. cbv zeta. rewrite Hp.
  repeat split; try done.
  unfold opened_and_closed. wsimpl. rewrite <- !app_assoc. reflexivity.
Qed.

Lemma malformed_pidfile_aborts_witness :
  start Sample.idle my_daemon Sample.malformed
  = (Raise (SystemExit 1),
     log (EWrite Stdout (malformed_msg my_daemon +:+ nl))
       (opened_and_closed "/tmp/daemon.pid" ORead Sample.malformed)).
Proof.
  apply (malformed_pidfile_aborts Sample.idle my_daemon Sample.malformed "abc");
    vm_compute; reflexivity.
Defined.

(** ** Stopping *)

(** C7. For a PID file whose number, if it holds one, is a possible
    process id (it fits [pid_t]): [stop] sends SIGTERM to a process id
    exactly when that id is what the PID file, opened and read, holds as a
    well-formed integer, and it sends no other signal; with the PID file
    absent it writes the not-running notice and returns normally without
    any signal; in every case it leaves the file system, the PID file
    included, as it was. *)
Theorem stop_signals_recorded_pid self w r w' :
  stop self w = (r, w') ->
  (forall d n,
      read_file w (resolve (w_cwd w) (pidfile self)) = inr d ->
      py_int (strip d) = Some n -> fits_pid_t n = true) ->
  w_fs w' = w_fs w
  /\ exists evs,
       w_trace w' = (w_trace w ++ evs)%list
       /\ (forall pid sig,
              In (EKill pid sig) evs <->
              sig = SIGTERM
              /\ exists d, read_file w (resolve (w_cwd w) (pidfile self)) = inr d
                           /\ py_int (strip d) = Some pid)
       /\ (w_fs w !! resolve (w_cwd w) (pidfile self) = None ->
           r = Ok tt /\ evs = [EWrite Stderr ("Daemon not running." +:+ nl)]).
Proof.
  rewrite stop_eq. unfold read_file at 1 2.
  destruct (w_fs w !! resolve (w_cwd w) (pidfile self)) as [[| m d] |] eqn:E.
  - intros [= <- <-] _. split; [reflexivity |]. eexists. split; [reflexivity |].
    split; [| done]. intros pid sig. split.
    + intros [H | []]. discriminate H.
    + intros (_ & d & H & _). unfold read_file in H. rewrite E in H. done.
  - destruct (owner_r m) eqn:Hr.
    + cbv zeta. destruct (py_int (strip d)) as [n |] eqn:Hp.
      * intros Hs Hfit. rewrite (Hfit d n eq_refl Hp) in Hs.
        injection Hs as <- <-.
        split; [reflexivity |]. eexists. split.
        { unfold opened_and_closed. wsimpl. rewrite <- !app_assoc.
          reflexivity. }
        split; [| done]. intros pid sig. split.
        -- intros [H | [H | [H | [H | []]]]]; try discriminate H.
           injection H as <- <-. split; [reflexivity |].
           exists d. unfold read_file. rewrite E, Hr. done.
        -- intros (-> & d' & H & Hp'). unfold read_file in H.
           rewrite E, Hr in H. injection H as <-.
           rewrite Hp in Hp'. injection Hp' as <-.
           simpl. auto.
      * intros [= <- <-] _. split; [reflexivity |]. eexists. split.
        { unfold opened_and_closed. wsimpl. rewrite <- !app_assoc.
          reflexivity. }
        split; [| done]. intros pid sig. split.
        -- intros [H | [H | [H | []]]]; discriminate H.
        -- intros (_ & d' & H & Hp'). unfold read_file in H.
           rewrite E, Hr in H. injection H as <-. congruence.
    + intros [= <- <-] _. split; [reflexivity |]. eexists. split; [reflexivity |].
      split; [| done]. intros pid sig. split.
      * intros [H | []]. discriminate H.
      * intros (_ & d' & H & _). unfold read_file in H.
        rewrite E, Hr in H. done.
  - intros [= <- <-] _. split; [reflexivity |]. eexists. split; [reflexivity |].
    split; [| done]. intros pid sig. split.
    + intros [H | []]. discriminate H.
    + intros (_ & d & H & _). unfold read_file in H. rewrite E in H. done.
Qed.

Lemma stop_signals_recorded_pid_witness :
  w_fs (snd (stop my_daemon Sample.running)) = w_fs Sample.running
  /\ exists evs,
       w_trace (snd (stop my_daemon Sample.running))
       = (w_trace Sample.running ++ evs)%list
       /\ (forall pid sig,
              In (EKill pid sig) evs <->
              sig = SIGTERM
              /\ exists d, read_file Sample.running
                             (resolve (w_cwd Sample.running) "/tmp/daemon.pid") = inr d
                           /\ py_int (strip d) = Some pid)
       /\ (w_fs Sample.running !! resolve (w_cwd Sample.running) "/tmp/daemon.pid" = None ->
           fst (stop my_daemon Sample.running) = Ok tt
           /\ evs = [EWrite Stderr ("Daemon not running." +:+ nl)]).
Proof.
  apply (stop_signals_recorded_pid my_daemon Sample.running
           (fst (stop my_daemon Sample.running))
           (snd (stop my_daemon Sample.running))).
  - vm_compute. reflexivity.
  - intros d n Hd Hn.
    vm_compute in Hd. injection Hd as <-.
    vm_compute in Hn. injection Hn as <-. reflexivity.
Defined.

(** ** The termination signal *)

Lemma os_remove_keeps p w :
  (forall q, w_fs w !! q = None -> w_fs (snd (os_remove p w)) !! q = None)
  /\ (forall e, In e (w_trace w) -> In e (w_trace (snd (os_remove p w)))).
Proof.
  unfold os_remove.
  destruct (w_fs w !! resolve (w_cwd w) p) as [[| m d] |]; wsimpl; try done.
  split.
  - intros q Hq. destruct (decide (resolve (w_cwd w) p = q)) as [-> | Hne].
    + apply lookup_delete_eq.
    + by rewrite lookup_delete_ne.
  - intros e He. apply in_or_app. by left.
Qed.

Lemma callbacks_keep_absent cbs : forall w q,
  w_fs w !! q = None ->
  w_fs (fold_left (fun w' cb => snd (call_callback cb w')) cbs w) !! q = None.
Proof.
  induction cbs as [| [d] cbs IH]; intros w q H; simpl; [done |].
  apply IH. by apply os_remove_keeps.
Qed.

Lemma callbacks_keep_trace cbs : forall w e,
  In e (w_trace w) ->
  In e (w_trace (fold_left (fun w' cb => snd (call_callback cb w')) cbs w)).
Proof.
  induction cbs as [| [d] cbs IH]; intros w e H; simpl; [done |].
  apply IH. by apply os_remove_keeps.
Qed.

(** C8. Once [daemonize] has returned, SIGTERM runs the installed handler:
    the process ends with exit status 1, and on the way out the registered
    cleanup removes the PID file.  (With no handler installed the signal
    kills the process at once and nothing is cleaned up.) *)
Theorem sigterm_exits_and_removes_pidfile self w w' :
  daemonize self w = (Ok tt, w') ->
  exists w'',
    deliver_signal SIGTERM w' = (Exited 1, w'')
    /\ w_fs w'' !! resolve (w_cwd w') (pidfile self) = None
    /\ In (ERemove (resolve (w_cwd w') (pidfile self))) (w_trace w'')
    /\ (forall w0, w_handlers w0 !! SIGTERM = None ->
                   deliver_signal SIGTERM w0 = (Killed SIGTERM, w0)).
Proof.
  intros H.
  apply daemonize_ok_inv in H
    as (p1 & p2 & l & f1 & f2 & f3 & f4 & m & _ & _ & Hfs & _ & _ & Hcwd & _ & _
        & _ & Hax & Hh & _).
  eexists. split; [| split; [| split]].
  - unfold deliver_signal. rewrite Hh, lookup_insert_eq. reflexivity.
  - unfold run_atexit. rewrite Hax. cbn [fold_left call_callback].
    apply callbacks_keep_absent.
    unfold os_remove. wsimpl. rewrite Hcwd, Hfs. wsimpl. apply lookup_delete_eq.
  - unfold run_atexit. rewrite Hax. cbn [fold_left call_callback].
    apply callbacks_keep_trace.
    unfold os_remove. wsimpl. rewrite Hcwd, Hfs. wsimpl.
    apply in_or_app. right. by left.
  - intros w0 H0. unfold deliver_signal. by rewrite H0.
Qed.

Lemma sigterm_exits_and_removes_pidfile_witness :
  exists w'',
    deliver_signal SIGTERM (snd (daemonize my_daemon Sample.fresh)) = (Exited 1, w'')
    /\ w_fs w'' !! resolve (w_cwd (snd (daemonize my_daemon Sample.fresh)))
                     "/tmp/daemon.pid" = None
    /\ In (ERemove (resolve (w_cwd (snd (daemonize my_daemon Sample.fresh)))
                      "/tmp/daemon.pid")) (w_trace w'')
    /\ (forall w0, w_handlers w0 !! SIGTERM = None ->
                   deliver_signal SIGTERM w0 = (Killed SIGTERM, w0)).
Proof.
  apply (sigterm_exits_and_removes_pidfile my_daemon Sample.fresh
           (snd (daemonize my_daemon Sample.fresh))).
  vm_compute. reflexivity.
Defined.

(** ** Writing the process id and reading it back *)

Lemma write_pidfile_content self w w' :
  write_pidfile self w = (Ok tt, w') ->
  w_cwd w' = w_cwd w
  /\ exists m, w_fs w' !! resolve (w_cwd w) (pidfile self)
               = Some (File m (py_str (w_pid w) +:+ nl)).
Proof.
  intros Hw. apply write_pidfile_ok in Hw as (m & _ & ->).
  split; [reflexivity |]. exists m. wsimpl. apply lookup_insert_eq.
Qed.

Lemma read_pidfile_text self w n m :
  w_fs w !! resolve (w_cwd w) (pidfile self)
    = Some (File m (py_str n +:+ nl)) ->
  owner_r m = true ->
  _get_pid_from_file self w
  = (Ok (Some n), opened_and_closed (resolve (w_cwd w) (pidfile self)) ORead w).
Proof.
  intros Hfile Hr. rewrite get_pid_eq. unfold read_file. rewrite Hfile, Hr.
  cbv zeta. rewrite strip_py_str_nl, py_int_py_str. reflexivity.
Qed.

(** C9. Lines 50-53 leave the decimal text of the process id and a newline
    in the PID file; [_get_pid_from_file], in any state whose PID file
    holds the decimal text of an integer [n] and a newline and can be
    read, returns exactly [n]; so reading after writing returns the id
    written.  As text: [int((str(n) + newline).strip())] is [n] for every
    integer [n]. *)
Theorem pidfile_roundtrip self :
  (forall w w',
      write_pidfile self w = (Ok tt, w') ->
      exists m, w_fs w' !! resolve (w_cwd w') (pidfile self)
                = Some (File m (py_str (w_pid w) +:+ nl)))
  /\ (forall w n m,
         w_fs w !! resolve (w_cwd w) (pidfile self)
           = Some (File m (py_str n +:+ nl)) ->
         owner_r m = true ->
         _get_pid_from_file self w
         = (Ok (Some n),
            opened_and_closed (resolve (w_cwd w) (pidfile self)) ORead w))
  /\ (forall w w',
         write_pidfile self w = (Ok tt, w') ->
         openable ORead w' (resolve (w_cwd w') (pidfile self)) = true ->
         fst (_get_pid_from_file self w') = Ok (Some (w_pid w)))
  /\ (forall n, py_int (strip (py_str n +:+ nl)) = Some n).
Proof.
  split; [| split; [| split]].
  - intros w w' Hw. apply write_pidfile_content in Hw as [-> Hm]. exact Hm.
  - intros w n m Hfile Hr. exact (read_pidfile_text self w n m Hfile Hr).
  - intros w w' Hw Hopen.
    apply write_pidfile_content in Hw as [Hcwd [m Hm]].
    rewrite Hcwd in Hopen.
    assert (owner_r m = true) as Hr.
    { unfold openable in Hopen. rewrite read_file_open in Hopen.
      unfold read_file in Hopen. rewrite Hm in Hopen.
      by destruct (owner_r m). }
    rewrite <- Hcwd in Hm. by rewrite (read_pidfile_text self w' _ m Hm Hr).
  - intros n. rewrite strip_py_str_nl. apply py_int_py_str.
Qed.

Lemma pidfile_roundtrip_witness :
  _get_pid_from_file my_daemon Sample.running
  = (Ok (Some 1234), opened_and_closed "/tmp/daemon.pid" ORead Sample.running)
  /\ fst (_get_pid_from_file my_daemon
            (snd (write_pidfile my_daemon Sample.about_to_write)))
     = Ok (Some 1234).
Proof.
  destruct (pidfile_roundtrip my_daemon) as (_ & Hread & Hboth & _).
  split.
  - apply (Hread Sample.running 1234 420); vm_compute; reflexivity.
  - apply (Hboth Sample.about_to_write
             (snd (write_pidfile my_daemon Sample.about_to_write)));
      vm_compute; reflexivity.
Defined.

(** ** Where the messages go *)

(** C4. With the PID file of the running daemon 1234 in place, [start]
    forks nothing, installs no handler and leaves the file system alone,
    and writes the already-running notice to the error stream; but it also
    prints the process id on standard output ([print(pid)], line 80). *)
Theorem start_running_prints_pid :
  let r := start Sample.idle my_daemon Sample.running in
  fst r = Ok tt
  /\ output_of Stderr (w_trace (snd r)) = already_running_msg my_daemon 1234
  /\ output_of Stdout (w_trace (snd r)) = "1234" +:+ nl
  /\ w_fs (snd r) = w_fs Sample.running
  /\ w_forks (snd r) = w_forks Sample.running
  /\ w_handlers (snd r) = w_handlers Sample.running
  /\ existsb is_fork (w_trace (snd r)) = false.
Proof.
  intros r. subst r.
  split; [| split; [| split; [| split; [| split; [| split]]]]];
    vm_compute; reflexivity.
Qed.

(** C6. The notices of [start], [stop] and [status] go to the error
    stream, but two messages go to standard output: the malformed-PID
    diagnostic of [_get_pid_from_file] (line 73) and the value [start]
    prints before it does anything else (line 80). *)
Theorem diagnostics_on_stdout :
  let r := status my_daemon Sample.malformed in
  let s := start Sample.idle my_daemon Sample.fresh in
  fst r = Raise (SystemExit 1)
  /\ output_of Stdout (w_trace (snd r)) = malformed_msg my_daemon +:+ nl
  /\ output_of Stderr (w_trace (snd r)) = EmptyString
  /\ output_of Stdout (w_trace (snd s)) = "None" +:+ nl
  /\ output_of Stderr (w_trace (snd s)) = "Daemon starting..." +:+ nl.
Proof.
  intros r s. subst r s.
  split; [| split; [| split; [| split]]]; vm_compute; reflexivity.
Qed.

(** * Further properties of the code *)

(** ** What [daemonize] does to files and descriptors *)








(** ** Failing forks *)







(** ** Queries and repeated commands *)

Lemma read_file_opened_and_closed q md w q' :
  read_file (opened_and_closed q md w) q' = read_file w q'.
Proof. reflexivity. Qed.








(** ** Leaving the daemon *)






(** ** Empty and blank PID files *)




(** ** The self-test program *)




